(** * go-atlassian: Jira REST client services

    A shallow embedding of the service methods of the [jira/v2] package
    (filter sharing, project versions, issue metadata) and of the [jira]
    package (issue watchers), together with the parts of the Go standard
    library they call ([strconv], [fmt], [strings], [net/url]).

    Go strings are byte strings: they are modelled by [string], whose
    characters are the 8-bit [ascii].  Go [int] values are modelled by [Z];
    the services only print them.  A pointer that may be nil is an [option];
    a slice is a [list]. *)

From Stdlib Require Import List String Ascii ZArith NArith Bool Lia.
From Stdlib Require Import Numbers.DecimalString Numbers.DecimalZ.
From Stdlib Require Import Sorting.Sorted Sorting.Permutation.
Import ListNotations.

Local Open Scope list_scope.
Local Open Scope string_scope.

(** ** Bytes *)

Definition byte_in (lo hi c : ascii) : bool :=
  (N_of_ascii lo <=? N_of_ascii c)%N && (N_of_ascii c <=? N_of_ascii hi)%N.

(** ** package models: what the services use of it *)

Module models.

(** Modelled from the spec: the sentinel errors of package [models] (its
    declarations are not among the sources), one for each kind of missing
    identifier: no project ID, no version ID, no issue key. *)
Inductive Err :=
| ErrNoProjectIDError
| ErrNoVersionIDError
| ErrNoIssueKeyOrIDError.

(** Modelled from the spec: [VersionGetsOptions] (its declaration is not
    among the sources), with the fields [Search] reads and the types it
    reads them at. *)
Record VersionGetsOptions := {
  OrderBy : string;
  Query : string;
  Status : string;
  Expand : list string
}.

End models.

(** Go's [error] values: a sentinel of [models], an error made by
    [fmt.Errorf], or an error raised outside the services (by the client,
    the HTTP transport or the JSON decoder). *)
Inductive error :=
| Model (e : models.Err)
| Formatted (message : string)
| Foreign (message : string).

Coercion Model : models.Err >-> error.

(** ** package strconv *)

Module strconv.

(** [strconv.Itoa]: the decimal text of an integer, with a leading [-]
    for negative values. *)
Definition Itoa (i : Z) : string := NilEmpty.string_of_int (Z.to_int i).

End strconv.

(** ** package strings *)

Module strings.

(** [strings.Join(elems, sep)]. *)
Fixpoint Join (elems : list string) (sep : string) : string :=
  match elems with
  | [] => ""
  | [e] => e
  | e :: rest => e ++ sep ++ Join rest sep
  end.

(** [strings.HasPrefix(s, prefix)]. *)
Fixpoint HasPrefix (s prefix : string) : bool :=
  match prefix, s with
  | EmptyString, _ => true
  | String _ _, EmptyString => false
  | String p prefix', String c s' => Ascii.eqb p c && HasPrefix s' prefix'
  end.

(** [strings.Contains(s, substr)]. *)
Fixpoint Contains (s substr : string) : bool :=
  HasPrefix s substr ||
  match s with
  | EmptyString => false
  | String _ s' => Contains s' substr
  end.

(** [strings.Split(s, sep)] for a separator of one byte. *)
Fixpoint Split (s : string) (sep : ascii) : list string :=
  match s with
  | EmptyString => [""]
  | String c s' =>
      if Ascii.eqb c sep then "" :: Split s' sep
      else match Split s' sep with
           | first :: rest => String c first :: rest
           | [] => [String c ""]
           end
  end.

(** The first component of [strings.Cut(s, sep)] for a separator of one
    byte: the text before the first [sep], all of [s] when there is none. *)
Fixpoint Before (s : string) (sep : ascii) : string :=
  match s with
  | EmptyString => ""
  | String c s' => if Ascii.eqb c sep then "" else String c (Before s' sep)
  end.

(** [strings.IndexByte(s, c) >= 0]. *)
Fixpoint ContainsByte (s : string) (c : ascii) : bool :=
  match s with
  | EmptyString => false
  | String d s' => Ascii.eqb d c || ContainsByte s' c
  end.

End strings.

(** ** package fmt *)

Module fmt.

(** The operands the services pass to [Sprintf]. *)
Inductive operand :=
| Str (s : string)
| Int (i : Z).

(** The [%v] verb: a string prints as itself, an integer in decimal. *)
Definition verb_v (a : operand) : string :=
  match a with
  | Str s => s
  | Int i => strconv.Itoa i
  end.

(** [fmt.Sprintf] for formats whose only verb is [%v].  A verb with no
    operand left prints [%!v(MISSING)], as in Go. *)
Fixpoint Sprintf (format : string) (a : list operand) : string :=
  match format with
  | EmptyString => ""
  | String "%" (String "v" rest) =>
      match a with
      | [] => "%!v(MISSING)" ++ Sprintf rest []
      | x :: a' => verb_v x ++ Sprintf rest a'
      end
  | String c rest => String c (Sprintf rest a)
  end.

(** [fmt.Errorf]. *)
Definition Errorf (format : string) (a : list operand) : error :=
  Formatted (Sprintf format a).

End fmt.

(** ** package net/url *)

Module url.

(** [shouldEscape(c, encodeQueryComponent)]: letters, digits and the marks
    [-], [_], [.], [~] are kept; every other byte is escaped. *)
Definition shouldEscape (c : ascii) : bool :=
  if byte_in "a" "z" c || byte_in "A" "Z" c || byte_in "0" "9" c then false
  else if Ascii.eqb c "-" || Ascii.eqb c "_" || Ascii.eqb c "." || Ascii.eqb c "~"
       then false
       else true.

(** [upperhex[n]] for [n < 16]. *)
Definition upperhex (n : N) : ascii :=
  match String.get (N.to_nat n) "0123456789ABCDEF" with
  | Some h => h
  | None => "0"%char
  end.

(** [QueryEscape(s)]: a space becomes [+], an escaped byte [c] becomes
    [%] followed by the two upper-case hexadecimal digits [c>>4] and
    [c&15]. *)
Fixpoint QueryEscape (s : string) : string :=
  match s with
  | EmptyString => ""
  | String c s' =>
      if Ascii.eqb c " " then String "+" (QueryEscape s')
      else if shouldEscape c then
        String "%" (String (upperhex (N.shiftr (N_of_ascii c) 4))
                   (String (upperhex (N.land (N_of_ascii c) 15))
                           (QueryEscape s')))
      else String c (QueryEscape s')
  end.

(** [url.Values] is [map[string][]string]: each key is bound once, to the
    slice of its values in the order they were added. *)
Definition Values := list (string * list string).

Definition empty : Values := [].

(** [v.Add(key, value)]: [v[key] = append(v[key], value)]. *)
Fixpoint Add (v : Values) (key value : string) : Values :=
  match v with
  | [] => [(key, [value])]
  | (k, vs) :: v' =>
      if String.eqb k key then (k, (vs ++ [value])%list) :: v'
      else (k, vs) :: Add v' key value
  end.

(** [slices.Sort(keys)], by insertion; Go compares strings bytewise. *)
Fixpoint insert_key (kv : string * list string) (v : Values) : Values :=
  match v with
  | [] => [kv]
  | kv' :: v' =>
      if String.leb (fst kv) (fst kv') then kv :: kv' :: v'
      else kv' :: insert_key kv v'
  end.

Fixpoint sort_keys (v : Values) : Values :=
  match v with
  | [] => []
  | kv :: v' => insert_key kv (sort_keys v')
  end.

(** The inner loop of [Encode]: one [key=value] pair per value. *)
Definition pairs_of (kv : string * list string) : list string :=
  map (fun value => QueryEscape (fst kv) ++ "=" ++ QueryEscape value) (snd kv).

(** [v.Encode()]: the pairs, sorted by key, joined by [&]. *)
Definition Encode (v : Values) : string :=
  strings.Join (flat_map pairs_of (sort_keys v)) "&".

(** The keys of the pairs [Encode] writes for [v], one per value. *)
Definition encoded_keys (v : Values) : list string :=
  flat_map (fun kv => map (fun _ => QueryEscape (fst kv)) (snd kv)) v.

(** The keys read back from a query string, as [ParseQuery] splits it: the
    pairs are separated by [&], an empty pair is skipped, and the key of a
    pair is the text before its first [=].  Keys are left escaped. *)
Definition query_keys (query : string) : list string :=
  map (fun pair => strings.Before pair "=")
      (filter (fun pair => negb (String.eqb pair "")) (strings.Split query "&")).

End url.

(** ** package encoding/json *)

Module json.

(** JSON documents. *)
#[warnings="-register-all"] Inductive value :=
| Null
| Bool (b : bool)
| Number (n : Z)
| String (s : string)
| Array (elements : list value)
| Object (members : list (string * value)).

(** A string field tagged [omitempty] is left out when it is empty. *)
Definition omitempty (name s : string) : list (string * value) :=
  if String.eqb s "" then [] else [(name, String s)].

(** The keys of an object, in order. *)
Definition keys (v : value) : list string :=
  match v with
  | Object members => map fst members
  | _ => []
  end.

(** [json.Marshal] on values of type [T]. *)
Class Marshaler (T : Type) := Marshal : T -> value + error.

(** [json.Unmarshal(data, &v)]: the new content of [v] and the error. *)
Class Unmarshaler (T : Type) := Unmarshal : string -> T -> T * option error.

End json.

(** ** package context *)

Module context.

Inductive Context :=
| Background
| TODO
| WithTimeout (parent : Context) (d : Z).

End context.

(** ** package net/http *)

(** The body of a request: the JSON document it carries. *)
Definition Reader := json.value.

Module http.

Definition MethodGet := "GET".
Definition MethodPost := "POST".
Definition MethodPut := "PUT".
Definition MethodDelete := "DELETE".

Definition Header := list (string * list string).

(** [h.Set(key, value)] replaces the values of [key].  The keys the
    services set are already in canonical form. *)
Fixpoint Set_ (h : Header) (key value : string) : Header :=
  match h with
  | [] => [(key, [value])]
  | (k, vs) :: h' =>
      if String.eqb k key then (k, [value]) :: h'
      else (k, vs) :: Set_ h' key value
  end.

Record Request := {
  Method : string;
  URL : string;
  Header_ : Header;
  Body : option Reader
}.

(** [request.Header.Set(key, value)]. *)
Definition Header_Set (request : Request) (key value : string) : Request :=
  {| Method := Method request;
     URL := URL request;
     Header_ := Set_ (Header_ request) key value;
     Body := Body request |}.

End http.

(** ** Effects

    A service method builds requests and sends them.  Both are recorded, in
    order, in a trace; a computation is a function of the trace so far.  A
    nil dereference panics: the computation yields no value. *)

Inductive Event :=
| Built (method endpoint : string) (body : option Reader)
| Sent (request : http.Request).

Definition Trace := list Event.

Definition M (A : Type) : Type := Trace -> option A * Trace.

Definition ret {A} (a : A) : M A := fun t => (Some a, t).

Definition bind {A B} (m : M A) (k : A -> M B) : M B :=
  fun t =>
    match m t with
    | (Some a, t') => k a t'
    | (None, t') => (None, t')
    end.

Definition emit (e : Event) : M unit := fun t => (Some tt, (t ++ [e])%list).

Definition history : M Trace := fun t => (Some t, t).

Definition panic {A} : M A := fun t => (None, t).

Notation "x <- m ;; k" := (bind m (fun x => k))
  (at level 61, m at next level, right associativity).
Notation "' pat <- m ;; k" := (bind m (fun x => match x with pat => k end))
  (at level 61, pat pattern, m at next level, right associativity).

(** No request was built and none was sent between two traces. *)
Definition no_network (before after : Trace) : Prop := after = before.

(** Between the trace [before] and the trace [after], exactly one request
    was built, for [method], [endpoint] and [body], and whatever followed
    built no other. *)
Definition built_once (before after : Trace) (method endpoint : string)
    (body : option Reader) : Prop :=
  exists sent : Trace,
    after = (before ++ Built method endpoint body :: sent)%list
    /\ forall e, In e sent -> exists request, e = Sent request.

(** The endpoints of the requests built in a trace. *)
Fixpoint built_endpoints (t : Trace) : list string :=
  match t with
  | [] => []
  | Built _ endpoint _ :: t' => endpoint :: built_endpoints t'
  | Sent _ :: t' => built_endpoints t'
  end.

(** ** package jira/v2 *)

Module v2.

(** Modelled from the spec: [ResponseScheme] (its declaration is not among
    the sources), the response envelope: status code, endpoint invoked, raw
    body. *)
Record ResponseScheme := {
  Code : Z;
  Endpoint : string;
  Bytes : string
}.

(** What a client is configured with.  [request_of] is the request built
    for a method, a relative path and a body, or the error of building it;
    [exchange] is the outcome of one network round trip, which may depend
    on what happened before; [status_error] is the error, if any, that the
    client reports for a status code, and it reports none for a 2xx code. *)
Record Client := {
  request_of : context.Context -> string -> string -> option Reader -> http.Request + error;
  exchange : Trace -> http.Request -> ResponseScheme + error;
  status_error : Z -> option error;
  status_error_2xx : forall code, (200 <= code < 300)%Z -> status_error code = None
}.

(** Modelled from the spec: [Client.newRequest] (the client is not among
    the sources).  It constructs the request for a method, a relative path
    and an optional body, or fails; no network traffic. *)
Definition newRequest (c : Client) (ctx : context.Context) (method endpoint : string)
    (body : option Reader) : M (http.Request + error) :=
  _ <- emit (Built method endpoint body) ;;
  ret (request_of c ctx method endpoint body).

(** Modelled from the spec: [Client.call] (the client is not among the
    sources).  It performs exactly one round trip and populates the
    envelope; when the target [structure] is not nil the JSON body is
    decoded into it.  It fails with the transport error when the round trip
    cannot complete and with the decoder's error when the body does not
    decode.  The first component of the result is the content of the target
    after the call. *)
Definition call {T} `{json.Unmarshaler T} (c : Client) (request : http.Request)
    (structure : option T) : M (option T * option ResponseScheme * option error) :=
  before <- history ;;
  _ <- emit (Sent request) ;;
  match exchange c before request with
  | inr err => ret (structure, None, Some err)
  | inl response =>
      match status_error c (Code response) with
      | Some err => ret (structure, Some response, Some err)
      | None =>
          match structure with
          | None => ret (None, Some response, None)
          | Some target =>
              let (target, err) := json.Unmarshal (Bytes response) target in
              ret (Some target, Some response, err)
          end
      end
  end.

(** The content of a variable whose address was handed to [call]. *)
Definition pointee {T} (target : option T) (variable : T) : T :=
  match target with
  | Some content => content
  | None => variable
  end.

(** A nil target has no content to decode into. *)
#[global] Instance Unmarshaler_unit : json.Unmarshaler unit := fun _ u => (u, None).

Definition no_target : option unit := None.

(** Modelled from the spec: [transformStructToReader] (the helper is not
    among the sources).  It serializes a payload structure to JSON and
    returns a reader over the document, or the error of [json.Marshal].
    What it returns for a nil structure is [on_nil]. *)
Definition transformStructToReader {T} `{json.Marshaler T}
    (on_nil : option Reader * option error) (structure : option T)
  : option Reader * option error :=
  match structure with
  | None => on_nil
  | Some payload =>
      match json.Marshal payload with
      | inl document => (Some document, None)
      | inr err => (None, Some err)
      end
  end.

(** *** filterShare.go *)

Record ShareFilterScopeScheme := {
  Scope : string  (* `json:"scope"` *)
}.

#[global] Instance Marshaler_ShareFilterScopeScheme : json.Marshaler ShareFilterScopeScheme :=
  fun p => inl (json.Object [("scope", json.String (Scope p))]).

Record PermissionFilterPayloadScheme := {
  Type_ : string;          (* `json:"type,omitempty"` *)
  ProjectID : string;      (* `json:"projectId,omitempty"` *)
  GroupName : string;      (* `json:"groupname,omitempty"` *)
  ProjectRoleID : string   (* `json:"projectRoleId,omitempty"` *)
}.

#[global] Instance Marshaler_PermissionFilterPayloadScheme
  : json.Marshaler PermissionFilterPayloadScheme :=
  fun p => inl (json.Object (json.omitempty "type" (Type_ p)
                             ++ json.omitempty "projectId" (ProjectID p)
                             ++ json.omitempty "groupname" (GroupName p)
                             ++ json.omitempty "projectRoleId" (ProjectRoleID p))%list).

Module FilterShareService.

Section Service.

Variable c : Client.
Variable on_nil : option Reader * option error.
Variable SharePermissionScheme : Type.
Context {U_scope : json.Unmarshaler (option ResponseScheme)}.
Context {U_permission : json.Unmarshaler (option SharePermissionScheme)}.
Context {U_permissions : json.Unmarshaler (list (option SharePermissionScheme))}.

(** [Scope]: the decode target handed to [call] is [&response]; [result]
    is never assigned. *)
Definition Scope (ctx : context.Context)
  : M (option ShareFilterScopeScheme * option ResponseScheme * option error) :=
  let result : option ShareFilterScopeScheme := None in
  let response : option ResponseScheme := None in
  let endpoint := "rest/api/2/filter/defaultShareScope" in
  r <- newRequest c ctx http.MethodGet endpoint None ;;
  match r with
  | inr err => ret (result, response, Some err)
  | inl request =>
      let request := http.Header_Set request "Accept" "application/json" in
      '(target, returned, err) <- call c request (Some response) ;;
      let response := pointee target response in
      let response := returned in
      ret (result, response, err)
  end.

Definition validScopeValuesAsList : list string := ["GLOBAL"; "AUTHENTICATED"; "PRIVATE"].

(** The loop over the valid scopes: [isValid] is set, and the loop left,
    at the first one equal to [scope]. *)
Fixpoint range_validScopes (values : list string) (scope : string) (isValid : bool) : bool :=
  match values with
  | [] => isValid
  | validScope :: rest =>
      if String.eqb validScope scope then true
      else range_validScopes rest scope isValid
  end.

Definition SetScope (ctx : context.Context) (scope : string)
  : M (option ResponseScheme * option error) :=
  let isValid := range_validScopes validScopeValuesAsList scope false in
  if negb isValid then
    let validScopeValuesAsString := strings.Join validScopeValuesAsList "," in
    ret (None, Some (fmt.Errorf "invalid scope, please provide one of the following: %v"
                                [fmt.Str validScopeValuesAsString]))
  else
    let payload := Build_ShareFilterScopeScheme scope in
    let (payloadAsReader, _) := transformStructToReader on_nil (Some payload) in
    let endpoint := "rest/api/2/filter/defaultShareScope" in
    r <- newRequest c ctx http.MethodPut endpoint payloadAsReader ;;
    match r with
    | inr err => ret (None, Some err)
    | inl request =>
        let request := http.Header_Set request "Accept" "application/json" in
        let request := http.Header_Set request "Content-Type" "application/json" in
        '(_, response, err) <- call c request no_target ;;
        ret (response, err)
    end.

Definition Gets (ctx : context.Context) (filterID : Z)
  : M (list (option SharePermissionScheme) * option ResponseScheme * option error) :=
  let result : list (option SharePermissionScheme) := [] in
  let endpoint := fmt.Sprintf "rest/api/2/filter/%v/permission" [fmt.Int filterID] in
  r <- newRequest c ctx http.MethodGet endpoint None ;;
  match r with
  | inr err => ret (result, None, Some err)
  | inl request =>
      let request := http.Header_Set request "Accept" "application/json" in
      '(target, response, err) <- call c request (Some result) ;;
      let result := pointee target result in
      ret (result, response, err)
  end.

Definition Add (ctx : context.Context) (filterID : Z)
    (payload : option PermissionFilterPayloadScheme)
  : M (list (option SharePermissionScheme) * option ResponseScheme * option error) :=
  let result : list (option SharePermissionScheme) := [] in
  match transformStructToReader on_nil payload with
  | (_, Some err) => ret ([], None, Some err)
  | (payloadAsReader, None) =>
      let endpoint := fmt.Sprintf "rest/api/2/filter/%v/permission" [fmt.Int filterID] in
      r <- newRequest c ctx http.MethodPost endpoint payloadAsReader ;;
      match r with
      | inr err => ret (result, None, Some err)
      | inl request =>
          let request := http.Header_Set request "Accept" "application/json" in
          let request := http.Header_Set request "Content-Type" "application/json" in
          '(target, response, err) <- call c request (Some result) ;;
          let result := pointee target result in
          ret (result, response, err)
      end
  end.

Definition Get (ctx : context.Context) (filterID permissionID : Z)
  : M (option SharePermissionScheme * option ResponseScheme * option error) :=
  let result : option SharePermissionScheme := None in
  let endpoint := fmt.Sprintf "rest/api/2/filter/%v/permission/%v"
                              [fmt.Int filterID; fmt.Int permissionID] in
  r <- newRequest c ctx http.MethodGet endpoint None ;;
  match r with
  | inr err => ret (result, None, Some err)
  | inl request =>
      '(target, response, err) <- call c request (Some result) ;;
      let result := pointee target result in
      ret (result, response, err)
  end.

Definition Delete (ctx : context.Context) (filterID permissionID : Z)
  : M (option ResponseScheme * option error) :=
  let endpoint := fmt.Sprintf "rest/api/2/filter/%v/permission/%v"
                              [fmt.Int filterID; fmt.Int permissionID] in
  r <- newRequest c ctx http.MethodDelete endpoint None ;;
  match r with
  | inr err => ret (None, Some err)
  | inl request =>
      '(_, response, err) <- call c request no_target ;;
      ret (response, err)
  end.

End Service.

End FilterShareService.

(** *** projectVersion.go *)

Module ProjectVersionService.

Section Service.

Variable c : Client.
Variable on_nil : option Reader * option error.
Variables VersionScheme VersionPageScheme VersionPayloadScheme : Type.
Variables VersionIssueCountsScheme VersionUnresolvedIssuesCountScheme : Type.
Context {M_payload : json.Marshaler VersionPayloadScheme}.
Context {U_versions : json.Unmarshaler (list (option VersionScheme))}.
Context {U_version : json.Unmarshaler (option VersionScheme)}.
Context {U_page : json.Unmarshaler (option VersionPageScheme)}.
Context {U_counts : json.Unmarshaler (option VersionIssueCountsScheme)}.
Context {U_unresolved : json.Unmarshaler (option VersionUnresolvedIssuesCountScheme)}.

Definition Gets (ctx : context.Context) (projectKeyOrID : string)
  : M (list (option VersionScheme) * option ResponseScheme * option error) :=
  let result : list (option VersionScheme) := [] in
  if Nat.eqb (String.length projectKeyOrID) 0 then
    ret ([], None, Some (models.ErrNoProjectIDError : error))
  else
    let endpoint := fmt.Sprintf "rest/api/2/project/%v/versions" [fmt.Str projectKeyOrID] in
    r <- newRequest c ctx http.MethodGet endpoint None ;;
    match r with
    | inr err => ret (result, None, Some err)
    | inl request =>
        let request := http.Header_Set request "Accept" "application/json" in
        '(target, response, err) <- call c request (Some result) ;;
        let result := pointee target result in
        ret (result, response, err)
    end.

(** The query parameters [Search] collects. *)
Definition Search_params (options : option models.VersionGetsOptions)
    (startAt maxResults : Z) : url.Values :=
  let params := url.empty in
  let params := url.Add params "startAt" (strconv.Itoa startAt) in
  let params := url.Add params "maxResults" (strconv.Itoa maxResults) in
  match options with
  | None => params
  | Some options =>
      let params :=
        if negb (Nat.eqb (List.length (models.Expand options)) 0)
        then url.Add params "expand" (strings.Join (models.Expand options) ",")
        else params in
      let params :=
        if negb (Nat.eqb (String.length (models.Query options)) 0)
        then url.Add params "query" (models.Query options)
        else params in
      let params :=
        if negb (Nat.eqb (String.length (models.Status options)) 0)
        then url.Add params "status" (models.Status options)
        else params in
      let params :=
        if negb (Nat.eqb (String.length (models.OrderBy options)) 0)
        then url.Add params "orderBy" (models.OrderBy options)
        else params in
      params
  end.

Definition Search (ctx : context.Context) (projectKeyOrID : string)
    (options : option models.VersionGetsOptions) (startAt maxResults : Z)
  : M (option VersionPageScheme * option ResponseScheme * option error) :=
  let result : option VersionPageScheme := None in
  if Nat.eqb (String.length projectKeyOrID) 0 then
    ret (None, None, Some (models.ErrNoProjectIDError : error))
  else
    let params := Search_params options startAt maxResults in
    let endpoint := fmt.Sprintf "rest/api/2/project/%v/version?%v"
                                [fmt.Str projectKeyOrID; fmt.Str (url.Encode params)] in
    r <- newRequest c ctx http.MethodGet endpoint None ;;
    match r with
    | inr err => ret (result, None, Some err)
    | inl request =>
        let request := http.Header_Set request "Accept" "application/json" in
        '(target, response, err) <- call c request (Some result) ;;
        let result := pointee target result in
        ret (result, response, err)
    end.

Definition Create (ctx : context.Context) (payload : option VersionPayloadScheme)
  : M (option VersionScheme * option ResponseScheme * option error) :=
  let result : option VersionScheme := None in
  let endpoint := "rest/api/2/version" in
  match transformStructToReader on_nil payload with
  | (_, Some err) => ret (None, None, Some err)
  | (payloadAsReader, None) =>
      r <- newRequest c ctx http.MethodPost endpoint payloadAsReader ;;
      match r with
      | inr err => ret (result, None, Some err)
      | inl request =>
          let request := http.Header_Set request "Accept" "application/json" in
          let request := http.Header_Set request "Content-Type" "application/json" in
          '(target, response, err) <- call c request (Some result) ;;
          let result := pointee target result in
          ret (result, response, err)
      end
  end.

(** The query parameters [Get] collects. *)
Definition Get_params (expand : list string) : url.Values :=
  let params := url.empty in
  if negb (Nat.eqb (List.length expand) 0)
  then url.Add params "expand" (strings.Join expand ",")
  else params.

(** The endpoint [Get] writes into its [strings.Builder]. *)
Definition Get_endpoint (versionID : string) (expand : list string) : string :=
  let params := Get_params expand in
  let endpoint := "" in
  let endpoint := endpoint ++ fmt.Sprintf "rest/api/2/version/%v" [fmt.Str versionID] in
  if negb (String.eqb (url.Encode params) "")
  then endpoint ++ fmt.Sprintf "?%v" [fmt.Str (url.Encode params)]
  else endpoint.

Definition Get (ctx : context.Context) (versionID : string) (expand : list string)
  : M (option VersionScheme * option ResponseScheme * option error) :=
  let result : option VersionScheme := None in
  if Nat.eqb (String.length versionID) 0 then
    ret (None, None, Some (models.ErrNoVersionIDError : error))
  else
    let endpoint := Get_endpoint versionID expand in
    r <- newRequest c ctx http.MethodGet endpoint None ;;
    match r with
    | inr err => ret (result, None, Some err)
    | inl request =>
        let request := http.Header_Set request "Accept" "application/json" in
        '(target, response, err) <- call c request (Some result) ;;
        let result := pointee target result in
        ret (result, response, err)
    end.

Definition Update (ctx : context.Context) (versionID : string)
    (payload : option VersionPayloadScheme)
  : M (option VersionScheme * option ResponseScheme * option error) :=
  let result : option VersionScheme := None in
  if Nat.eqb (String.length versionID) 0 then
    ret (None, None, Some (models.ErrNoVersionIDError : error))
  else
    let endpoint := fmt.Sprintf "rest/api/2/version/%v" [fmt.Str versionID] in
    match transformStructToReader on_nil payload with
    | (_, Some err) => ret (None, None, Some err)
    | (payloadAsReader, None) =>
        r <- newRequest c ctx http.MethodPut endpoint payloadAsReader ;;
        match r with
        | inr err => ret (result, None, Some err)
        | inl request =>
            let request := http.Header_Set request "Accept" "application/json" in
            let request := http.Header_Set request "Content-Type" "application/json" in
            '(target, response, err) <- call c request (Some result) ;;
            let result := pointee target result in
            ret (result, response, err)
        end
    end.

Definition Merge (ctx : context.Context) (versionID versionMoveIssuesTo : string)
  : M (option ResponseScheme * option error) :=
  if Nat.eqb (String.length versionID) 0 then
    ret (None, Some (models.ErrNoVersionIDError : error))
  else if Nat.eqb (String.length versionMoveIssuesTo) 0 then
    ret (None, Some (models.ErrNoVersionIDError : error))
  else
    let endpoint := fmt.Sprintf "rest/api/2/version/%v/mergeto/%v"
                                [fmt.Str versionID; fmt.Str versionMoveIssuesTo] in
    r <- newRequest c ctx http.MethodPut endpoint None ;;
    match r with
    | inr err => ret (None, Some err)
    | inl request =>
        let request := http.Header_Set request "Accept" "application/json" in
        '(_, response, err) <- call c request no_target ;;
        ret (response, err)
    end.

Definition RelatedIssueCounts (ctx : context.Context) (versionID : string)
  : M (option VersionIssueCountsScheme * option ResponseScheme * option error) :=
  let result : option VersionIssueCountsScheme := None in
  if Nat.eqb (String.length versionID) 0 then
    ret (None, None, Some (models.ErrNoVersionIDError : error))
  else
    let endpoint := fmt.Sprintf "rest/api/2/version/%v/relatedIssueCounts" [fmt.Str versionID] in
    r <- newRequest c ctx http.MethodGet endpoint None ;;
    match r with
    | inr err => ret (result, None, Some err)
    | inl request =>
        let request := http.Header_Set request "Accept" "application/json" in
        '(target, response, err) <- call c request (Some result) ;;
        let result := pointee target result in
        ret (result, response, err)
    end.

Definition UnresolvedIssueCount (ctx : context.Context) (versionID : string)
  : M (option VersionUnresolvedIssuesCountScheme * option ResponseScheme * option error) :=
  let result : option VersionUnresolvedIssuesCountScheme := None in
  if Nat.eqb (String.length versionID) 0 then
    ret (None, None, Some (models.ErrNoVersionIDError : error))
  else
    let endpoint := fmt.Sprintf "rest/api/2/version/%v/unresolvedIssueCount" [fmt.Str versionID] in
    r <- newRequest c ctx http.MethodGet endpoint None ;;
    match r with
    | inr err => ret (result, None, Some err)
    | inl request =>
        let request := http.Header_Set request "Accept" "application/json" in
        '(target, response, err) <- call c request (Some result) ;;
        let result := pointee target result in
        ret (result, response, err)
    end.

End Service.

End ProjectVersionService.

(** *** issueMetadata.go *)

Record IssueMetadataCreateOptions := {
  ProjectIDs : list string;      (* `url:"projectIds,omitempty"` *)
  ProjectKeys : list string;     (* `url:"projectKeys,omitempty"` *)
  IssueTypeIDs : list string;    (* `url:"issuetypeIds,omitempty"` *)
  IssueTypeNames : list string;  (* `url:"issuetypeNames,omitempty"` *)
  Expand : string                (* `url:"expand,omitempty"` *)
}.

Module IssueMetadataService.

Section Service.

Variable c : Client.

(** [gjson.Result], its zero value and [gjson.ParseBytes]. *)
Variable gjson_Result : Type.
Variable gjson_Result_zero : gjson_Result.
Variable gjson_ParseBytes : string -> gjson_Result.

(** The query parameters [Get] collects. *)
Definition Get_params (overrideScreenSecurity overrideEditableFlag : bool) : url.Values :=
  let params := url.empty in
  let params :=
    if overrideEditableFlag then url.Add params "overrideEditableFlag" "true" else params in
  let params :=
    if overrideScreenSecurity then url.Add params "overrideScreenSecurity" "true" else params in
  params.

(** The endpoint [Get] writes into its [strings.Builder]. *)
Definition Get_endpoint (issueKeyOrID : string)
    (overrideScreenSecurity overrideEditableFlag : bool) : string :=
  let params := Get_params overrideScreenSecurity overrideEditableFlag in
  let endpoint := "" in
  let endpoint := endpoint ++ fmt.Sprintf "rest/api/2/issue/%v/editmeta" [fmt.Str issueKeyOrID] in
  if negb (String.eqb (url.Encode params) "")
  then endpoint ++ fmt.Sprintf "?%v" [fmt.Str (url.Encode params)]
  else endpoint.

Definition Get (ctx : context.Context) (issueKeyOrID : string)
    (overrideScreenSecurity overrideEditableFlag : bool)
  : M (gjson_Result * option ResponseScheme * option error) :=
  let result : gjson_Result := gjson_Result_zero in
  if Nat.eqb (String.length issueKeyOrID) 0 then
    ret (gjson_Result_zero, None, Some (models.ErrNoIssueKeyOrIDError : error))
  else
    let endpoint := Get_endpoint issueKeyOrID overrideScreenSecurity overrideEditableFlag in
    r <- newRequest c ctx http.MethodGet endpoint None ;;
    match r with
    | inr err => ret (result, None, Some err)
    | inl request =>
        let request := http.Header_Set request "Accept" "application/json" in
        '(_, response, err) <- call c request no_target ;;
        match err with
        | Some _ => ret (result, response, err)
        | None =>
            match response with
            | None => panic
            | Some envelope => ret (gjson_ParseBytes (Bytes envelope), response, None)
            end
        end
    end.

(** [query.Values(opts)] for [IssueMetadataCreateOptions]: a slice adds one
    value per element under its key, and a field tagged [omitempty] is left
    out when it is empty; a nil [opts] gives no parameter. *)
Definition add_each (params : url.Values) (key : string) (values : list string) : url.Values :=
  fold_left (fun params value => url.Add params key value) values params.

Definition query_Values (opts : option IssueMetadataCreateOptions) : url.Values :=
  match opts with
  | None => url.empty
  | Some opts =>
      let params := url.empty in
      let params := add_each params "projectIds" (ProjectIDs opts) in
      let params := add_each params "projectKeys" (ProjectKeys opts) in
      let params := add_each params "issuetypeIds" (IssueTypeIDs opts) in
      let params := add_each params "issuetypeNames" (IssueTypeNames opts) in
      if negb (String.eqb (Expand opts) "") then url.Add params "expand" (Expand opts)
      else params
  end.

(** The endpoint [Create] writes into its [strings.Builder]. *)
Definition Create_endpoint (opts : option IssueMetadataCreateOptions) : string :=
  let params := query_Values opts in
  let endpoint := "" in
  let endpoint := endpoint ++ "rest/api/2/issue/createmeta" in
  endpoint ++ fmt.Sprintf "?%v" [fmt.Str (url.Encode params)].

Definition Create (ctx : context.Context) (opts : option IssueMetadataCreateOptions)
  : M (gjson_Result * option ResponseScheme * option error) :=
  let result : gjson_Result := gjson_Result_zero in
  let endpoint := Create_endpoint opts in
  r <- newRequest c ctx http.MethodGet endpoint None ;;
  match r with
  | inr err => ret (result, None, Some err)
  | inl request =>
      let request := http.Header_Set request "Accept" "application/json" in
      '(_, response, err) <- call c request no_target ;;
      match err with
      | Some _ => ret (result, response, err)
      | None =>
          match response with
          | None => panic
          | Some envelope => ret (gjson_ParseBytes (Bytes envelope), response, None)
          end
      end
  end.

End Service.

End IssueMetadataService.

End v2.

(** ** package jira *)

Module jira.

(** Modelled from the spec: [Response] (its declaration is not among the
    sources), with the fields the callers read. *)
Record Response := {
  StatusCode : Z;
  Endpoint : string;
  BodyAsBytes : string
}.

(** What a client is configured with: the request built for a method, a
    path and a body, and what one round trip returns. *)
Record Client := {
  request_of : context.Context -> string -> string -> option Reader -> http.Request + error;
  exchange : Trace -> http.Request -> option Response * option error
}.

(** Modelled from the spec: [Client.newRequest] (the client is not among
    the sources), as in package [v2]. *)
Definition newRequest (c : Client) (ctx : context.Context) (method endpoint : string)
    (body : option Reader) : M (http.Request + error) :=
  _ <- emit (Built method endpoint body) ;;
  ret (request_of c ctx method endpoint body).

(** Modelled from the spec: [Client.Do] (the client is not among the
    sources).  It sends the request, one round trip, and returns the
    response and the error. *)
Definition Do (c : Client) (request : http.Request) : M (option Response * option error) :=
  before <- history ;;
  _ <- emit (Sent request) ;;
  ret (exchange c before request).

(** *** issueWatcher.go *)

Record Watcher := {
  Watcher_Self : string;         (* `json:"self"` *)
  Watcher_AccountID : string;    (* `json:"accountId"` *)
  Watcher_DisplayName : string;  (* `json:"displayName"` *)
  Watcher_Active : bool          (* `json:"active"` *)
}.

Record IssueWatcherScheme := {
  Self : string;            (* `json:"self"` *)
  IsWatching : bool;        (* `json:"isWatching"` *)
  WatchCount : Z;           (* `json:"watchCount"` *)
  Watchers : list Watcher   (* `json:"watchers"` *)
}.

(** [new(IssueWatcherScheme)]: a pointer to the zero value. *)
Definition new_IssueWatcherScheme : option IssueWatcherScheme :=
  Some {| Self := ""; IsWatching := false; WatchCount := 0; Watchers := [] |}.

Module WatcherService.

Section Service.

Variable c : Client.
Context {U_watchers : json.Unmarshaler (option IssueWatcherScheme)}.

Definition Get (ctx : context.Context) (issueKeyOrID : string)
  : M (option IssueWatcherScheme * option Response * option error) :=
  let result : option IssueWatcherScheme := None in
  let endpoint := fmt.Sprintf "rest/api/3/issue/%v/watchers" [fmt.Str issueKeyOrID] in
  r <- newRequest c ctx http.MethodGet endpoint None ;;
  match r with
  | inr err => ret (result, None, Some err)
  | inl request =>
      let request := http.Header_Set request "Content-Type" "application/json" in
      '(response, err) <- Do c request ;;
      match err with
      | Some _ => ret (result, response, err)
      | None =>
          let result := new_IssueWatcherScheme in
          match response with
          | None => panic
          | Some received =>
              let (result, err) := json.Unmarshal (BodyAsBytes received) result in
              ret (result, response, err)
          end
      end
  end.

Definition Add (ctx : context.Context) (issueKeyOrID : string)
  : M (option Response * option error) :=
  let endpoint := fmt.Sprintf "rest/api/3/issue/%v/watchers" [fmt.Str issueKeyOrID] in
  r <- newRequest c ctx http.MethodPost endpoint None ;;
  match r with
  | inr err => ret (None, Some err)
  | inl request =>
      let request := http.Header_Set request "Content-Type" "application/json" in
      '(response, err) <- Do c request ;;
      ret (response, err)
  end.

Definition Delete (ctx : context.Context) (issueKeyOrID : string)
  : M (option Response * option error) :=
  let endpoint := fmt.Sprintf "rest/api/3/issue/%v/watchers" [fmt.Str issueKeyOrID] in
  r <- newRequest c ctx http.MethodDelete endpoint None ;;
  match r with
  | inr err => ret (None, Some err)
  | inl request =>
      let request := http.Header_Set request "Content-Type" "application/json" in
      '(response, err) <- Do c request ;;
      ret (response, err)
  end.

End Service.

End WatcherService.

End jira.

(** ** A client to evaluate the services on

    It builds every request against one host, answers every request with
    status 200 and an empty JSON object, and its decoders leave their
    target as it is. *)

Definition demo_request (ctx : context.Context) (method endpoint : string)
    (body : option Reader) : http.Request + error :=
  inl {| http.Method := method;
         http.URL := "https://demo.atlassian.net/" ++ endpoint;
         http.Header_ := [];
         http.Body := body |}.

Definition demo_client : v2.Client :=
  {| v2.request_of := demo_request;
     v2.exchange := fun _ request =>
       inl {| v2.Code := 200; v2.Endpoint := http.URL request; v2.Bytes := "{}" |};
     v2.status_error := fun _ => None;
     v2.status_error_2xx := fun _ _ => eq_refl |}.

Definition demo_jira_client : jira.Client :=
  {| jira.request_of := demo_request;
     jira.exchange := fun _ request =>
       (Some {| jira.StatusCode := 200; jira.Endpoint := http.URL request;
                jira.BodyAsBytes := "{}" |}, None) |}.

Definition demo_decoder (T : Type) : json.Unmarshaler T := fun _ target => (target, None).

Definition demo_on_nil : option Reader * option error :=
  (None, Some (Foreign "nil structure")).

(** ** Headers, lookups and what a method exchanges *)


(** [v[key]]: the values of a query parameter, nil when it is absent. *)
Fixpoint query_values (v : url.Values) (key : string) : list string :=
  match v with
  | [] => []
  | (k, vs) :: v' => if String.eqb k key then vs else query_values v' key
  end.

(** The request after [request.Header.Set] for each pair, in order. *)
Definition with_headers (headers : list (string * string)) (request : http.Request)
  : http.Request :=
  fold_left (fun request kv => http.Header_Set request (fst kv) (snd kv)) headers request.

(** The whole effect of a method that builds one request and sends it:
    [run] is what the method gives from the trace [before], and [built] is
    what the client makes of the request.  When the client cannot build
    it, the method returns [failed err] and nothing is sent; otherwise the
    request is sent once, after [headers] were set on it, and nothing else
    happens. *)
Definition exchanged {R} (run : option R * Trace) (before : Trace)
    (method endpoint : string) (body : option Reader) (built : http.Request + error)
    (headers : list (string * string)) (failed : error -> R) : Prop :=
  match built with
  | inl request =>
      snd run = (before ++ [Built method endpoint body;
                            Sent (with_headers headers request)])%list
  | inr err =>
      run = (Some (failed err), (before ++ [Built method endpoint body])%list)
  end.

(** One pair of a query string, left out when the value is empty. *)
Definition optional_pair (key value : string) : list string :=
  if Nat.eqb (String.length value) 0 then []
  else [key ++ "=" ++ url.QueryEscape value].

(** A byte that [QueryEscape] keeps as it is. *)
Definition unreserved (c : ascii) : bool := negb (url.shouldEscape c).

(** All the bytes of a string satisfy [p]. *)
Fixpoint all_bytes (p : ascii -> bool) (s : string) : bool :=
  match s with
  | EmptyString => true
  | String c s' => p c && all_bytes p s'
  end.

(** Encoders to evaluate the services on: one that writes every payload
    as an empty object, one that fails. *)
Definition demo_encoder (T : Type) : json.Marshaler T := fun _ => inl (json.Object []).

Definition failing_encoder (T : Type) : json.Marshaler T :=
  fun _ => inr (Foreign "json: unsupported value").

(** A client that cannot build any request. *)
Definition failing_client : v2.Client :=
  {| v2.request_of := fun _ _ _ _ => inr (Foreign "net/http: nil Context");
     v2.exchange := v2.exchange demo_client;
     v2.status_error := fun _ => None;
     v2.status_error_2xx := fun _ _ => eq_refl |}.

(** A client of package [jira] whose round trips return neither a
    response nor an error. *)
Definition silent_jira_client : jira.Client :=
  {| jira.request_of := demo_request;
     jira.exchange := fun _ _ => (None, None) |}.

(** * Properties *)

(** ** Running a computation *)

Ltac run :=
  cbv [bind ret emit history panic v2.newRequest v2.call jira.newRequest jira.Do
       v2.pointee v2.no_target].

Ltac effects :=
  run; simpl;
  repeat match goal with
  | |- context [match v2.request_of ?c ?x ?m ?e ?b with _ => _ end] =>
      destruct (v2.request_of c x m e b); simpl
  | |- context [match v2.exchange ?c ?h ?r with _ => _ end] =>
      destruct (v2.exchange c h r); simpl
  | |- context [match v2.status_error ?c ?z with _ => _ end] =>
      destruct (v2.status_error c z); simpl
  | |- context [match jira.request_of ?c ?x ?m ?e ?b with _ => _ end] =>
      destruct (jira.request_of c x m e b); simpl
  | |- context [match jira.exchange ?c ?h ?r with _ => _ end] =>
      destruct (jira.exchange c h r) as [[?|] [?|]]; simpl
  | |- context [match json.Unmarshal ?b ?t with _ => _ end] =>
      destruct (json.Unmarshal b t); simpl
  end.

Ltac one_request :=
  unfold built_once; effects;
  eexists; (split; [rewrite <- ?app_assoc; simpl; reflexivity |]);
  simpl; intros ? ?;
  repeat match goal with
  | H : _ \/ _ |- _ => destruct H
  | H : False |- _ => destruct H
  end; subst; eauto.

(** ** The library functions on concrete inputs *)

Example Itoa_examples :
  strconv.Itoa 0 = "0" /\ strconv.Itoa 50 = "50" /\ strconv.Itoa (-17) = "-17".
Proof. repeat split. Qed.

Example Sprintf_example :
  fmt.Sprintf "rest/api/2/filter/%v/permission/%v" [fmt.Int 10; fmt.Int 3]
  = "rest/api/2/filter/10/permission/3".
Proof. reflexivity. Qed.

Example QueryEscape_example : url.QueryEscape "a b&c=d/~e,f" = "a+b%26c%3Dd%2F~e%2Cf".
Proof. reflexivity. Qed.

Example Encode_example :
  url.Encode (url.Add (url.Add (url.Add (url.Add url.empty "startAt" "0") "maxResults" "50")
                               "expand" "a,b") "expand" "c")
  = "expand=a%2Cb&expand=c&maxResults=50&startAt=0".
Proof. reflexivity. Qed.

Example query_keys_example :
  url.query_keys "expand=a%2Cb&expand=c&maxResults=50&startAt=0"
  = ["expand"; "expand"; "maxResults"; "startAt"].
Proof. reflexivity. Qed.

Example Join_example : strings.Join ["GLOBAL"; "AUTHENTICATED"; "PRIVATE"] ","
                       = "GLOBAL,AUTHENTICATED,PRIVATE".
Proof. reflexivity. Qed.

Lemma length_0_empty (s : string) : Nat.eqb (String.length s) 0 = true <-> s = "".
Proof.
  destruct s; simpl; split; intro H; try reflexivity; discriminate.
Qed.

Lemma length_0_nonempty (s : string) : s <> "" -> Nat.eqb (String.length s) 0 = false.
Proof.
  destruct s; simpl; [intro H; now elim H | reflexivity].
Qed.

(** ** The scope check of [SetScope] *)

Lemma range_validScopes_In (values : list string) (scope : string) :
  v2.FilterShareService.range_validScopes values scope false = true <-> In scope values.
Proof.
  induction values as [|v values IH]; simpl.
  - split; [discriminate | tauto].
  - destruct (String.eqb_spec v scope) as [E|N].
    + split; auto.
    + rewrite IH. split; [auto | intros [E|H]; [now elim N | exact H]].
Qed.

Lemma range_validScopes_not_In (values : list string) (scope : string) :
  ~ In scope values -> v2.FilterShareService.range_validScopes values scope false = false.
Proof.
  intro H. destruct (v2.FilterShareService.range_validScopes values scope false) eqn:E; auto.
  apply range_validScopes_In in E. contradiction.
Qed.


(** ** Formatting *)

Lemma append_empty_r (s : string) : s ++ "" = s.
Proof.
  induction s as [|a s IH]; simpl; [reflexivity | now rewrite IH].
Qed.

Lemma append_assoc (a b d : string) : (a ++ b) ++ d = a ++ b ++ d.
Proof.
  induction a as [|x a IH]; simpl; [reflexivity | now rewrite IH].
Qed.

Lemma Sprintf_permission_item (filterID permissionID : Z) :
  fmt.Sprintf "rest/api/2/filter/%v/permission/%v" [fmt.Int filterID; fmt.Int permissionID]
  = "rest/api/2/filter/" ++ strconv.Itoa filterID ++ "/permission/" ++ strconv.Itoa permissionID.
Proof.
  simpl. now rewrite append_empty_r.
Qed.

(** ** Traces of the methods *)

Section FilterShare_traces.

Variable c : v2.Client.
Variable on_nil : option Reader * option error.
Variable SharePermissionScheme : Type.
Context {U_permission : json.Unmarshaler (option SharePermissionScheme)}.
Context {U_permissions : json.Unmarshaler (list (option SharePermissionScheme))}.

Lemma FilterShare_Gets_builds (ctx : context.Context) (filterID : Z) (t : Trace) :
  built_once t (snd (v2.FilterShareService.Gets c SharePermissionScheme ctx filterID t))
    "GET" ("rest/api/2/filter/" ++ strconv.Itoa filterID ++ "/permission") None.
Proof.
  unfold v2.FilterShareService.Gets. one_request.
Qed.

Lemma FilterShare_Add_builds (ctx : context.Context) (filterID : Z)
    (payload : v2.PermissionFilterPayloadScheme) (t : Trace) :
  built_once t
    (snd (v2.FilterShareService.Add c on_nil SharePermissionScheme ctx filterID (Some payload) t))
    "POST" ("rest/api/2/filter/" ++ strconv.Itoa filterID ++ "/permission")
    (Some (json.Object (json.omitempty "type" (v2.Type_ payload)
                        ++ json.omitempty "projectId" (v2.ProjectID payload)
                        ++ json.omitempty "groupname" (v2.GroupName payload)
                        ++ json.omitempty "projectRoleId" (v2.ProjectRoleID payload))%list)).
Proof.
  unfold v2.FilterShareService.Add. one_request.
Qed.

Lemma FilterShare_Get_builds (ctx : context.Context) (filterID permissionID : Z) (t : Trace) :
  built_once t
    (snd (v2.FilterShareService.Get c SharePermissionScheme ctx filterID permissionID t))
    "GET" ("rest/api/2/filter/" ++ strconv.Itoa filterID ++ "/permission/"
           ++ strconv.Itoa permissionID) None.
Proof.
  unfold v2.FilterShareService.Get. rewrite Sprintf_permission_item. one_request.
Qed.

Lemma FilterShare_Delete_builds (ctx : context.Context) (filterID permissionID : Z) (t : Trace) :
  built_once t (snd (v2.FilterShareService.Delete c ctx filterID permissionID t))
    "DELETE" ("rest/api/2/filter/" ++ strconv.Itoa filterID ++ "/permission/"
              ++ strconv.Itoa permissionID) None.
Proof.
  unfold v2.FilterShareService.Delete. rewrite Sprintf_permission_item. one_request.
Qed.

End FilterShare_traces.

(** [Add] with any payload, nil included: either the payload could not be
    serialized and nothing happened, or one request was built. *)
Lemma FilterShare_Add_path (c : v2.Client) (on_nil : option Reader * option error)
    (SharePermissionScheme : Type)
    (U_permissions : json.Unmarshaler (list (option SharePermissionScheme)))
    (ctx : context.Context) (filterID : Z)
    (payload : option v2.PermissionFilterPayloadScheme) (t : Trace) :
  snd (v2.FilterShareService.Add c on_nil SharePermissionScheme ctx filterID payload t) = t
  \/ exists body,
       built_once t
         (snd (v2.FilterShareService.Add c on_nil SharePermissionScheme ctx filterID payload t))
         "POST" ("rest/api/2/filter/" ++ strconv.Itoa filterID ++ "/permission") body.
Proof.
  destruct payload as [payload|].
  - right. eexists. apply FilterShare_Add_builds.
  - unfold v2.FilterShareService.Add. simpl v2.transformStructToReader.
    destruct on_nil as [reader [err|]]; [left; reflexivity|].
    right. exists reader. one_request.
Qed.

Section Watcher_traces.

Variable c : jira.Client.
Context {U_watchers : json.Unmarshaler (option jira.IssueWatcherScheme)}.

Lemma Watcher_Get_builds (ctx : context.Context) (issueKeyOrID : string) (t : Trace) :
  built_once t (snd (jira.WatcherService.Get c ctx issueKeyOrID t))
    "GET" ("rest/api/3/issue/" ++ issueKeyOrID ++ "/watchers") None.
Proof.
  unfold jira.WatcherService.Get. one_request.
Qed.

Lemma Watcher_Add_builds (ctx : context.Context) (issueKeyOrID : string) (t : Trace) :
  built_once t (snd (jira.WatcherService.Add c ctx issueKeyOrID t))
    "POST" ("rest/api/3/issue/" ++ issueKeyOrID ++ "/watchers") None.
Proof.
  unfold jira.WatcherService.Add. one_request.
Qed.

Lemma Watcher_Delete_builds (ctx : context.Context) (issueKeyOrID : string) (t : Trace) :
  built_once t (snd (jira.WatcherService.Delete c ctx issueKeyOrID t))
    "DELETE" ("rest/api/3/issue/" ++ issueKeyOrID ++ "/watchers") None.
Proof.
  unfold jira.WatcherService.Delete. one_request.
Qed.

End Watcher_traces.

(** ** Query strings *)

Lemma ContainsByte_app (a b : string) (c : ascii) :
  strings.ContainsByte (a ++ b) c = strings.ContainsByte a c || strings.ContainsByte b c.
Proof.
  induction a as [|x a IH]; simpl; [reflexivity|].
  rewrite IH. now rewrite orb_assoc.
Qed.

Lemma Split_no_sep (a : string) (sep : ascii) :
  strings.ContainsByte a sep = false -> strings.Split a sep = [a].
Proof.
  induction a as [|x a IH]; simpl; [reflexivity|].
  intro H. apply orb_false_elim in H. destruct H as [Hx Ha].
  rewrite Hx, (IH Ha). reflexivity.
Qed.

Lemma Split_app_sep (a b : string) (sep : ascii) :
  strings.ContainsByte a sep = false ->
  strings.Split (a ++ String sep b) sep = a :: strings.Split b sep.
Proof.
  induction a as [|x a IH]; simpl.
  - intros _. now rewrite Ascii.eqb_refl.
  - intro H. apply orb_false_elim in H. destruct H as [Hx Ha].
    rewrite Hx, (IH Ha). reflexivity.
Qed.

Lemma Before_app_sep (a b : string) (sep : ascii) :
  strings.ContainsByte a sep = false -> strings.Before (a ++ String sep b) sep = a.
Proof.
  induction a as [|x a IH]; simpl.
  - intros _. now rewrite Ascii.eqb_refl.
  - intro H. apply orb_false_elim in H. destruct H as [Hx Ha].
    rewrite Hx, (IH Ha). reflexivity.
Qed.

(** An escaped string has neither [&] nor [=] in it. *)
Lemma QueryEscape_no_separator (s : string) :
  strings.ContainsByte (url.QueryEscape s) "&" = false
  /\ strings.ContainsByte (url.QueryEscape s) "=" = false.
Proof.
  induction s as [|a s [IH1 IH2]]; [split; reflexivity|].
  destruct a as [[] [] [] [] [] [] [] []]; split; assumption.
Qed.

Lemma pairs_of_shape (kv : string * list string) (pair : string) :
  In pair (url.pairs_of kv) ->
  exists value, pair = url.QueryEscape (fst kv) ++ String "=" (url.QueryEscape value).
Proof.
  unfold url.pairs_of. intro H. apply in_map_iff in H.
  destruct H as [value [E _]]. exists value. now rewrite <- E.
Qed.

(** Splitting a joined list of pairs gives the pairs back. *)
Lemma Split_Join (pairs : list string) :
  (forall pair, In pair pairs -> strings.ContainsByte pair "&" = false) ->
  pairs <> [] ->
  strings.Split (strings.Join pairs "&") "&" = pairs.
Proof.
  induction pairs as [|p pairs IH]; intros Hno Hne; [now elim Hne|].
  destruct pairs as [|q pairs].
  - simpl. apply Split_no_sep. apply Hno. now left.
  - change (strings.Join (p :: q :: pairs) "&")
      with (p ++ String "&" (strings.Join (q :: pairs) "&")).
    rewrite Split_app_sep by (apply Hno; now left).
    rewrite IH; [reflexivity | | discriminate].
    intros pair H. apply Hno. now right.
Qed.

Lemma escaped_pair_no_amp (key value : string) :
  strings.ContainsByte (url.QueryEscape key ++ String "=" (url.QueryEscape value)) "&" = false.
Proof.
  rewrite ContainsByte_app. simpl.
  destruct (QueryEscape_no_separator key) as [-> _].
  destruct (QueryEscape_no_separator value) as [-> _]. reflexivity.
Qed.

Lemma escaped_pair_key (key value : string) :
  strings.Before (url.QueryEscape key ++ String "=" (url.QueryEscape value)) "="
  = url.QueryEscape key.
Proof.
  apply Before_app_sep. now destruct (QueryEscape_no_separator key).
Qed.

Lemma escaped_pair_nonempty (key value : string) :
  String.eqb (url.QueryEscape key ++ String "=" (url.QueryEscape value)) "" = false.
Proof.
  destruct (url.QueryEscape key); reflexivity.
Qed.

Lemma keys_of_pairs (v : url.Values) :
  map (fun pair => strings.Before pair "=")
      (filter (fun pair => negb (String.eqb pair "")) (flat_map url.pairs_of v))
  = url.encoded_keys v.
Proof.
  unfold url.encoded_keys.
  induction v as [|[key values] v IH]; simpl; [reflexivity|].
  rewrite filter_app, map_app, IH. f_equal.
  unfold url.pairs_of. simpl.
  induction values as [|value values IHv]; simpl; [reflexivity|].
  change (url.QueryEscape key ++ "=" ++ url.QueryEscape value)
    with (url.QueryEscape key ++ String "=" (url.QueryEscape value)).
  rewrite escaped_pair_nonempty. simpl.
  rewrite escaped_pair_key. now rewrite IHv.
Qed.

(** Reading the keys back from an encoded query gives the escaped keys of
    the values, sorted, one per value. *)
Lemma query_keys_Encode (v : url.Values) :
  url.query_keys (url.Encode v) = url.encoded_keys (url.sort_keys v).
Proof.
  unfold url.query_keys, url.Encode.
  destruct (flat_map url.pairs_of (url.sort_keys v)) as [|p pairs] eqn:E.
  - simpl. rewrite <- keys_of_pairs, E. reflexivity.
  - rewrite Split_Join; [| | discriminate].
    + rewrite <- E. apply keys_of_pairs.
    + intros pair H. rewrite <- E in H. apply in_flat_map in H.
      destruct H as [kv [_ H]]. apply pairs_of_shape in H. destruct H as [value ->].
      apply escaped_pair_no_amp.
Qed.

Lemma encoded_keys_app (v w : url.Values) :
  url.encoded_keys (v ++ w)%list = (url.encoded_keys v ++ url.encoded_keys w)%list.
Proof.
  unfold url.encoded_keys. apply flat_map_app.
Qed.

Lemma encoded_keys_cons (kv : string * list string) (v : url.Values) :
  url.encoded_keys (kv :: v)
  = (map (fun _ => url.QueryEscape (fst kv)) (snd kv) ++ url.encoded_keys v)%list.
Proof. reflexivity. Qed.

Lemma In_encoded_keys_insert (key : string) (kv : string * list string) (v : url.Values) :
  In key (url.encoded_keys (url.insert_key kv v)) <-> In key (url.encoded_keys (kv :: v)).
Proof.
  induction v as [|kv' v IH]; cbn [url.insert_key]; [reflexivity|].
  destruct (String.leb (fst kv) (fst kv')); [reflexivity|].
  rewrite (encoded_keys_cons kv'), in_app_iff, IH.
  rewrite !encoded_keys_cons, !in_app_iff. intuition.
Qed.

(** Sorting does not change which keys are written. *)
Lemma In_encoded_keys_sort (key : string) (v : url.Values) :
  In key (url.encoded_keys (url.sort_keys v)) <-> In key (url.encoded_keys v).
Proof.
  induction v as [|kv v IH]; cbn [url.sort_keys]; [reflexivity|].
  rewrite In_encoded_keys_insert, !encoded_keys_cons, !in_app_iff, IH. reflexivity.
Qed.

(** A key is in an encoded query exactly when the values hold it. *)
Lemma In_query_keys_Encode (key : string) (v : url.Values) :
  In key (url.query_keys (url.Encode v)) <-> In key (url.encoded_keys v).
Proof.
  rewrite query_keys_Encode. apply In_encoded_keys_sort.
Qed.

(** [Add] writes one more pair, under the escaped key. *)
Lemma In_encoded_keys_Add (key : string) (v : url.Values) (k value : string) :
  In key (url.encoded_keys (url.Add v k value))
  <-> In key (url.encoded_keys v) \/ key = url.QueryEscape k.
Proof.
  induction v as [|[k' values] v IH]; cbn [url.Add].
  - unfold url.encoded_keys. simpl. intuition.
  - destruct (String.eqb_spec k' k) as [->|N].
    + rewrite !encoded_keys_cons, !in_app_iff. cbn [fst snd].
      rewrite map_app, in_app_iff. simpl. intuition.
    + rewrite !encoded_keys_cons, !in_app_iff, IH. intuition.
Qed.

(** ** Project versions *)

Section ProjectVersion_facts.

Variable c : v2.Client.
Variable on_nil : option Reader * option error.
Variables VersionScheme VersionPageScheme VersionPayloadScheme : Type.
Variables VersionIssueCountsScheme VersionUnresolvedIssuesCountScheme : Type.
Context {M_payload : json.Marshaler VersionPayloadScheme}.
Context {U_versions : json.Unmarshaler (list (option VersionScheme))}.
Context {U_version : json.Unmarshaler (option VersionScheme)}.
Context {U_page : json.Unmarshaler (option VersionPageScheme)}.
Context {U_counts : json.Unmarshaler (option VersionIssueCountsScheme)}.
Context {U_unresolved : json.Unmarshaler (option VersionUnresolvedIssuesCountScheme)}.

Lemma Search_builds (ctx : context.Context) (projectKeyOrID : string)
    (options : option models.VersionGetsOptions) (startAt maxResults : Z) (t : Trace) :
  projectKeyOrID <> "" ->
  built_once t
    (snd (v2.ProjectVersionService.Search c VersionPageScheme ctx projectKeyOrID options
            startAt maxResults t))
    "GET"
    ("rest/api/2/project/" ++ projectKeyOrID ++ "/version?"
     ++ url.Encode (v2.ProjectVersionService.Search_params options startAt maxResults))
    None.
Proof.
  intro H. unfold v2.ProjectVersionService.Search.
  rewrite (length_0_nonempty _ H).
  replace (fmt.Sprintf "rest/api/2/project/%v/version?%v" _)
    with ("rest/api/2/project/" ++ projectKeyOrID ++ "/version?"
          ++ url.Encode (v2.ProjectVersionService.Search_params options startAt maxResults))
    by (simpl; now rewrite append_empty_r).
  one_request.
Qed.

Lemma Get_endpoint_shape (versionID : string) (expand : list string) :
  v2.ProjectVersionService.Get_endpoint versionID expand
  = match expand with
    | [] => "rest/api/2/version/" ++ versionID
    | _ => "rest/api/2/version/" ++ versionID ++ "?"
           ++ url.Encode (v2.ProjectVersionService.Get_params expand)
    end.
Proof.
  unfold v2.ProjectVersionService.Get_endpoint.
  destruct expand as [|e expand].
  - simpl. now rewrite append_empty_r.
  - replace (String.eqb (url.Encode (v2.ProjectVersionService.Get_params (e :: expand))) "")
      with false by reflexivity.
    cbn [negb]. simpl fmt.Sprintf. rewrite !append_empty_r.
    now rewrite append_assoc.
Qed.

Lemma Get_builds (ctx : context.Context) (versionID : string) (expand : list string)
    (t : Trace) :
  versionID <> "" ->
  built_once t (snd (v2.ProjectVersionService.Get c VersionScheme ctx versionID expand t))
    "GET" (v2.ProjectVersionService.Get_endpoint versionID expand) None.
Proof.
  intro H. unfold v2.ProjectVersionService.Get.
  rewrite (length_0_nonempty _ H).
  generalize (v2.ProjectVersionService.Get_endpoint versionID expand). intro endpoint.
  one_request.
Qed.

End ProjectVersion_facts.

(** The keys [Search] sends: the two offsets always, and each option only
    when its field is not empty. *)
Lemma Search_params_keys (options : option models.VersionGetsOptions)
    (startAt maxResults : Z) (key : string) :
  In key (url.encoded_keys (v2.ProjectVersionService.Search_params options startAt maxResults))
  <-> key = "startAt" \/ key = "maxResults"
      \/ (key = "expand" /\ exists o, options = Some o /\ models.Expand o <> [])
      \/ (key = "query" /\ exists o, options = Some o /\ models.Query o <> "")
      \/ (key = "status" /\ exists o, options = Some o /\ models.Status o <> "")
      \/ (key = "orderBy" /\ exists o, options = Some o /\ models.OrderBy o <> "").
Proof.
  unfold v2.ProjectVersionService.Search_params.
  destruct options as [[orderBy query status expand]|]; cbn [models.Expand models.Query models.Status models.OrderBy].
  - assert (Hx : forall o : models.VersionGetsOptions,
               Some {| models.OrderBy := orderBy; models.Query := query;
                       models.Status := status; models.Expand := expand |} = Some o ->
               models.Expand o = expand /\ models.Query o = query
               /\ models.Status o = status /\ models.OrderBy o = orderBy).
    { intros o E. inversion E. subst. simpl. auto. }
    destruct expand, query, status, orderBy; cbn -[In];
      (split;
       [ intro H; simpl in H;
         repeat (destruct H as [H|H]; [subst key|]); try contradiction;
         first [ now left | now (right; left)
               | right; right; left; split; [reflexivity|];
                 eexists; split; [reflexivity|discriminate]
               | right; right; right; left; split; [reflexivity|];
                 eexists; split; [reflexivity|discriminate]
               | right; right; right; right; left; split; [reflexivity|];
                 eexists; split; [reflexivity|discriminate]
               | right; right; right; right; right; split; [reflexivity|];
                 eexists; split; [reflexivity|discriminate] ]
       | intros [H|[H|[[H [o [E N]]]|[[H [o [E N]]]|[[H [o [E N]]]|[H [o [E N]]]]]]]];
         subst key; try (destruct (Hx o E) as (E1 & E2 & E3 & E4);
                         rewrite ?E1, ?E2, ?E3, ?E4 in N; try (now elim N));
         simpl; auto 10 ]).
  - simpl. split.
    + intros [H|[H|[]]]; subst; auto.
    + intros [H|[H|[[_ [o [E _]]]|[[_ [o [E _]]]|[[_ [o [E _]]]|[_ [o [E _]]]]]]]];
        try discriminate; subst; auto.
Qed.

(** ** Issue metadata *)

Lemma Metadata_Get_params_keys (overrideScreenSecurity overrideEditableFlag : bool)
    (key : string) :
  In key (url.encoded_keys
            (v2.IssueMetadataService.Get_params overrideScreenSecurity overrideEditableFlag))
  <-> (key = "overrideEditableFlag" /\ overrideEditableFlag = true)
      \/ (key = "overrideScreenSecurity" /\ overrideScreenSecurity = true).
Proof.
  destruct overrideScreenSecurity, overrideEditableFlag; simpl;
    intuition (subst; auto; try discriminate).
Qed.

Lemma Metadata_Get_endpoint_shape (issueKeyOrID : string)
    (overrideScreenSecurity overrideEditableFlag : bool) :
  v2.IssueMetadataService.Get_endpoint issueKeyOrID overrideScreenSecurity overrideEditableFlag
  = "rest/api/2/issue/" ++ issueKeyOrID ++ "/editmeta"
    ++ (if overrideScreenSecurity || overrideEditableFlag
        then "?" ++ url.Encode (v2.IssueMetadataService.Get_params
                                  overrideScreenSecurity overrideEditableFlag)
        else "").
Proof.
  unfold v2.IssueMetadataService.Get_endpoint.
  destruct overrideScreenSecurity, overrideEditableFlag; simpl;
    rewrite ?append_assoc; reflexivity.
Qed.

Lemma add_each_keys (values : list string) (params : url.Values) (k key : string) :
  In key (url.encoded_keys (v2.IssueMetadataService.add_each params k values))
  <-> In key (url.encoded_keys params) \/ (key = url.QueryEscape k /\ values <> []).
Proof.
  unfold v2.IssueMetadataService.add_each.
  revert params. induction values as [|value values IH]; intro params; simpl.
  - intuition.
  - rewrite IH, In_encoded_keys_Add. split.
    + intros [[H|H]|[H _]]; auto; right; split; auto; discriminate.
    + intros [H|[H _]]; auto.
Qed.

(** The keys [Create] sends: each option only when its field is not empty. *)
Lemma query_Values_keys (opts : option v2.IssueMetadataCreateOptions) (key : string) :
  In key (url.encoded_keys (v2.IssueMetadataService.query_Values opts))
  <-> exists o, opts = Some o
      /\ ((key = "projectIds" /\ v2.ProjectIDs o <> [])
          \/ (key = "projectKeys" /\ v2.ProjectKeys o <> [])
          \/ (key = "issuetypeIds" /\ v2.IssueTypeIDs o <> [])
          \/ (key = "issuetypeNames" /\ v2.IssueTypeNames o <> [])
          \/ (key = "expand" /\ v2.Expand o <> "")).
Proof.
  unfold v2.IssueMetadataService.query_Values.
  destruct opts as [o|].
  - assert (K : In key (url.encoded_keys
                          (v2.IssueMetadataService.add_each
                             (v2.IssueMetadataService.add_each
                                (v2.IssueMetadataService.add_each
                                   (v2.IssueMetadataService.add_each url.empty
                                      "projectIds" (v2.ProjectIDs o))
                                   "projectKeys" (v2.ProjectKeys o))
                                "issuetypeIds" (v2.IssueTypeIDs o))
                             "issuetypeNames" (v2.IssueTypeNames o)))
                <-> (key = "projectIds" /\ v2.ProjectIDs o <> [])
                    \/ (key = "projectKeys" /\ v2.ProjectKeys o <> [])
                    \/ (key = "issuetypeIds" /\ v2.IssueTypeIDs o <> [])
                    \/ (key = "issuetypeNames" /\ v2.IssueTypeNames o <> [])).
    { rewrite !add_each_keys. simpl. intuition. }
    cbv zeta. destruct (String.eqb_spec (v2.Expand o) "") as [E|N]; cbn [negb].
    + rewrite K. split.
      * intro H. exists o. split; [reflexivity|]. intuition.
      * intros [o' [E' H]]. inversion E'. subst o'. intuition.
    + rewrite In_encoded_keys_Add, K. split.
      * intro H. exists o. split; [reflexivity|]. simpl in H. intuition.
      * intros [o' [E' H]]. inversion E'. subst o'. simpl. intuition.
  - simpl. split; [intros [] | intros [o [E _]]; discriminate].
Qed.

Section Metadata_traces.

Variable c : v2.Client.
Variable gjson_Result : Type.
Variable gjson_Result_zero : gjson_Result.
Variable gjson_ParseBytes : string -> gjson_Result.

Lemma Metadata_Get_builds (ctx : context.Context) (issueKeyOrID : string)
    (overrideScreenSecurity overrideEditableFlag : bool) (t : Trace) :
  issueKeyOrID <> "" ->
  built_once t
    (snd (v2.IssueMetadataService.Get c gjson_Result gjson_Result_zero gjson_ParseBytes ctx
            issueKeyOrID overrideScreenSecurity overrideEditableFlag t))
    "GET"
    (v2.IssueMetadataService.Get_endpoint issueKeyOrID overrideScreenSecurity
       overrideEditableFlag)
    None.
Proof.
  intro H. unfold v2.IssueMetadataService.Get.
  rewrite (length_0_nonempty _ H).
  generalize (v2.IssueMetadataService.Get_endpoint issueKeyOrID overrideScreenSecurity
                overrideEditableFlag).
  intro endpoint. one_request.
Qed.

Lemma Metadata_Create_builds (ctx : context.Context)
    (opts : option v2.IssueMetadataCreateOptions) (t : Trace) :
  built_once t
    (snd (v2.IssueMetadataService.Create c gjson_Result gjson_Result_zero gjson_ParseBytes ctx
            opts t))
    "GET"
    ("rest/api/2/issue/createmeta?" ++ url.Encode (v2.IssueMetadataService.query_Values opts))
    None.
Proof.
  unfold v2.IssueMetadataService.Create.
  replace (v2.IssueMetadataService.Create_endpoint opts)
    with ("rest/api/2/issue/createmeta?"
          ++ url.Encode (v2.IssueMetadataService.query_Values opts))
    by (unfold v2.IssueMetadataService.Create_endpoint; simpl; now rewrite append_empty_r).
  one_request.
Qed.

End Metadata_traces.

(** ** Decimal text has no question mark *)

Lemma string_of_uint_no_question (d : Decimal.uint) :
  strings.ContainsByte (NilEmpty.string_of_uint d) "?" = false.
Proof.
  induction d; simpl; auto.
Qed.

Lemma Itoa_no_question (i : Z) : strings.ContainsByte (strconv.Itoa i) "?" = false.
Proof.
  unfold strconv.Itoa. destruct (Z.to_int i); simpl; apply string_of_uint_no_question.
Qed.

(** ** Validation failures *)

Section Validation.

Variable c : v2.Client.
Variable on_nil : option Reader * option error.

Lemma SetScope_invalid (ctx : context.Context) (scope : string) (t : Trace) :
  ~ In scope ["GLOBAL"; "AUTHENTICATED"; "PRIVATE"] ->
  v2.FilterShareService.SetScope c on_nil ctx scope t
  = (Some (None, Some (Formatted
       "invalid scope, please provide one of the following: GLOBAL,AUTHENTICATED,PRIVATE")), t).
Proof.
  intro H.
  unfold v2.FilterShareService.SetScope, v2.FilterShareService.validScopeValuesAsList.
  rewrite (range_validScopes_not_In _ _ H). reflexivity.
Qed.

Lemma Merge_invalid (ctx : context.Context) (versionID versionMoveIssuesTo : string)
    (t : Trace) :
  versionID = "" \/ versionMoveIssuesTo = "" ->
  v2.ProjectVersionService.Merge c ctx versionID versionMoveIssuesTo t
  = (Some (None, Some (Model models.ErrNoVersionIDError)), t).
Proof.
  unfold v2.ProjectVersionService.Merge.
  intros [->| ->]; [reflexivity|].
  destruct versionID; reflexivity.
Qed.

End Validation.

(** * The claims *)

Section Claims.

Variable c : v2.Client.
Variable jc : jira.Client.
Variable on_nil : option Reader * option error.
Variable SharePermissionScheme : Type.
Variables VersionScheme VersionPageScheme VersionPayloadScheme : Type.
Variables VersionIssueCountsScheme VersionUnresolvedIssuesCountScheme : Type.
Variable gjson_Result : Type.
Variable gjson_Result_zero : gjson_Result.
Variable gjson_ParseBytes : string -> gjson_Result.
Context {U_scope : json.Unmarshaler (option v2.ResponseScheme)}.
Context {U_permission : json.Unmarshaler (option SharePermissionScheme)}.
Context {U_permissions : json.Unmarshaler (list (option SharePermissionScheme))}.
Context {M_payload : json.Marshaler VersionPayloadScheme}.
Context {U_versions : json.Unmarshaler (list (option VersionScheme))}.
Context {U_version : json.Unmarshaler (option VersionScheme)}.
Context {U_page : json.Unmarshaler (option VersionPageScheme)}.
Context {U_counts : json.Unmarshaler (option VersionIssueCountsScheme)}.
Context {U_unresolved : json.Unmarshaler (option VersionUnresolvedIssuesCountScheme)}.
Context {U_watchers : json.Unmarshaler (option jira.IssueWatcherScheme)}.

Local Abbreviation no_project := (Some (Model models.ErrNoProjectIDError)).
Local Abbreviation no_version := (Some (Model models.ErrNoVersionIDError)).
Local Abbreviation no_issue := (Some (Model models.ErrNoIssueKeyOrIDError)).

(** C1, in the form the code satisfies: with an empty identifier every method of
    [ProjectVersionService] that takes a project key or a version ID, and
    [IssueMetadataService.Get], returns its sentinel error (no project ID,
    no version ID, no issue key) and leaves the trace as it was, so that no
    request is built or sent.  [WatcherService.Get], [Add] and [Delete] and
    the filter-permission methods [Gets], [Add], [Get] and [Delete] have no
    such check: for every identifier, the empty key and the zero ID
    included, they build the request for that identifier. *)
Theorem identifier_checks (ctx : context.Context) (t : Trace) :
  v2.ProjectVersionService.Gets c VersionScheme ctx "" t = (Some ([], None, no_project), t)
  /\ (forall options startAt maxResults,
        v2.ProjectVersionService.Search c VersionPageScheme ctx "" options startAt maxResults t
        = (Some (None, None, no_project), t))
  /\ (forall expand,
        v2.ProjectVersionService.Get c VersionScheme ctx "" expand t
        = (Some (None, None, no_version), t))
  /\ (forall payload,
        v2.ProjectVersionService.Update c on_nil VersionScheme VersionPayloadScheme ctx ""
          payload t
        = (Some (None, None, no_version), t))
  /\ (forall other,
        v2.ProjectVersionService.Merge c ctx "" other t = (Some (None, no_version), t)
        /\ v2.ProjectVersionService.Merge c ctx other "" t = (Some (None, no_version), t))
  /\ v2.ProjectVersionService.RelatedIssueCounts c VersionIssueCountsScheme ctx "" t
     = (Some (None, None, no_version), t)
  /\ v2.ProjectVersionService.UnresolvedIssueCount c VersionUnresolvedIssuesCountScheme ctx "" t
     = (Some (None, None, no_version), t)
  /\ (forall overrideScreenSecurity overrideEditableFlag,
        v2.IssueMetadataService.Get c gjson_Result gjson_Result_zero gjson_ParseBytes ctx ""
          overrideScreenSecurity overrideEditableFlag t
        = (Some (gjson_Result_zero, None, no_issue), t))
  /\ (forall issueKeyOrID,
        let endpoint := "rest/api/3/issue/" ++ issueKeyOrID ++ "/watchers" in
        built_once t (snd (jira.WatcherService.Get jc ctx issueKeyOrID t)) "GET" endpoint None
        /\ built_once t (snd (jira.WatcherService.Add jc ctx issueKeyOrID t)) "POST" endpoint None
        /\ built_once t (snd (jira.WatcherService.Delete jc ctx issueKeyOrID t))
             "DELETE" endpoint None)
  /\ (forall filterID permissionID payload,
        let collection := "rest/api/2/filter/" ++ strconv.Itoa filterID ++ "/permission" in
        let item := collection ++ "/" ++ strconv.Itoa permissionID in
        built_once t
          (snd (v2.FilterShareService.Gets c SharePermissionScheme ctx filterID t))
          "GET" collection None
        /\ (exists body,
              built_once t
                (snd (v2.FilterShareService.Add c on_nil SharePermissionScheme ctx filterID
                        (Some payload) t))
                "POST" collection body)
        /\ built_once t
             (snd (v2.FilterShareService.Get c SharePermissionScheme ctx filterID permissionID t))
             "GET" item None
        /\ built_once t (snd (v2.FilterShareService.Delete c ctx filterID permissionID t))
             "DELETE" item None).
Proof.
  repeat match goal with |- _ /\ _ => split end; try reflexivity.
  - intros other. split; apply Merge_invalid; auto.
  - intros issueKeyOrID endpoint. repeat split.
    + apply Watcher_Get_builds.
    + apply Watcher_Add_builds.
    + apply Watcher_Delete_builds.
  - intros filterID permissionID payload collection item.
    assert (E : item = "rest/api/2/filter/" ++ strconv.Itoa filterID ++ "/permission/"
                       ++ strconv.Itoa permissionID).
    { unfold item, collection. simpl. now rewrite append_assoc. }
    rewrite E. repeat split.
    + apply FilterShare_Gets_builds.
    + eexists. apply FilterShare_Add_builds.
    + apply FilterShare_Get_builds.
    + apply FilterShare_Delete_builds.
Qed.

(** C2: whatever the client answers, the [result] that [Scope] returns is
    nil; in particular it is nil whenever the returned error is nil.  The
    decode target handed to [call] is the response variable, and [result]
    is never assigned. *)
Theorem Scope_result_is_nil (ctx : context.Context) (t : Trace) :
  exists (response : option v2.ResponseScheme) (err : option error),
    fst (v2.FilterShareService.Scope c ctx t) = Some (None, response, err).
Proof.
  unfold v2.FilterShareService.Scope. effects; eauto.
Qed.

(** C3, in the form the code satisfies: [Search] with an empty [projectKeyOrID] returns the
    no-project-ID error and builds no request.  With a non-empty
    [projectKeyOrID], [startAt = 0], [maxResults = 50] and no option set,
    it builds one request whose query string is exactly
    [maxResults=50&startAt=0] (the keys are written in sorted order); the
    keys of that query string are [maxResults] and [startAt], so none of
    [expand], [query], [status], [orderBy] is among them. *)
Theorem Search_default_query (ctx : context.Context) (projectKeyOrID : string)
    (options : option models.VersionGetsOptions) (t : Trace) :
  options = None
  \/ options = Some {| models.OrderBy := ""; models.Query := "";
                       models.Status := ""; models.Expand := [] |} ->
  v2.ProjectVersionService.Search c VersionPageScheme ctx "" options 0 50 t
  = (Some (None, None, no_project), t)
  /\ url.Encode (v2.ProjectVersionService.Search_params options 0 50)
     = "maxResults=50&startAt=0"
  /\ url.query_keys "maxResults=50&startAt=0" = ["maxResults"; "startAt"]
  /\ (forall key, In key ["expand"; "query"; "status"; "orderBy"] ->
      ~ In key (url.query_keys "maxResults=50&startAt=0"))
  /\ strings.Contains "maxResults=50&startAt=0" "startAt=0" = true
  /\ strings.Contains "maxResults=50&startAt=0" "maxResults=50" = true
  /\ (projectKeyOrID <> "" ->
      built_once t
        (snd (v2.ProjectVersionService.Search c VersionPageScheme ctx projectKeyOrID options
                0 50 t))
        "GET" ("rest/api/2/project/" ++ projectKeyOrID ++ "/version?maxResults=50&startAt=0")
        None).
Proof.
  intro H.
  assert (E : url.Encode (v2.ProjectVersionService.Search_params options 0 50)
              = "maxResults=50&startAt=0") by (destruct H as [->| ->]; reflexivity).
  repeat match goal with |- _ /\ _ => split end; try reflexivity; try exact E.
  - intros key K. simpl in K. simpl.
    intros [Q|[Q|[]]]; subst key;
      repeat (destruct K as [K|K]; [discriminate K|]); destruct K.
  - intro N.
    pose proof (Search_builds c VersionPageScheme ctx projectKeyOrID options 0 50 t N) as B.
    rewrite E in B. exact B.
Qed.

(** C4: a scope that is not exactly GLOBAL, AUTHENTICATED or PRIVATE
    (a lowercase variant, the empty string) makes [SetScope] return the
    invalid-scope error, and the trace is left as it was: no request is
    built and none is sent. *)
Theorem SetScope_rejects_invalid_scope (ctx : context.Context) (scope : string) (t : Trace) :
  ~ In scope ["GLOBAL"; "AUTHENTICATED"; "PRIVATE"] ->
  fst (v2.FilterShareService.SetScope c on_nil ctx scope t)
  = Some (None, Some (Formatted
      "invalid scope, please provide one of the following: GLOBAL,AUTHENTICATED,PRIVATE"))
  /\ no_network t (snd (v2.FilterShareService.SetScope c on_nil ctx scope t)).
Proof.
  intro H. rewrite (SetScope_invalid c on_nil ctx scope t H).
  split; reflexivity.
Qed.

(** C5: for a scope among GLOBAL, AUTHENTICATED and PRIVATE, [SetScope]
    builds exactly one request, a PUT to
    [rest/api/2/filter/defaultShareScope] whose body is the JSON object
    with the single member [scope] bound to the value.  When the client
    cannot build it, its error is returned and nothing is sent.  Otherwise
    the request is sent exactly once, with the two headers set, and when
    the round trip answers with a 2xx status the envelope and a nil error
    are returned. *)
Theorem SetScope_sends_one_put (ctx : context.Context) (scope : string) (t : Trace) :
  In scope ["GLOBAL"; "AUTHENTICATED"; "PRIVATE"] ->
  let endpoint := "rest/api/2/filter/defaultShareScope" in
  let body := Some (json.Object [("scope", json.String scope)]) in
  let built := (t ++ [Built "PUT" endpoint body])%list in
  match v2.request_of c ctx "PUT" endpoint body with
  | inr err =>
      v2.FilterShareService.SetScope c on_nil ctx scope t = (Some (None, Some err), built)
  | inl request =>
      let put := http.Header_Set (http.Header_Set request "Accept" "application/json")
                                 "Content-Type" "application/json" in
      snd (v2.FilterShareService.SetScope c on_nil ctx scope t) = (built ++ [Sent put])%list
      /\ forall response,
           v2.exchange c built put = inl response ->
           (200 <= v2.Code response < 300)%Z ->
           fst (v2.FilterShareService.SetScope c on_nil ctx scope t)
           = Some (Some response, None)
  end.
Proof.
  intros H endpoint body built.
  apply (range_validScopes_In ["GLOBAL"; "AUTHENTICATED"; "PRIVATE"]) in H.
  unfold v2.FilterShareService.SetScope, v2.FilterShareService.validScopeValuesAsList.
  rewrite H. cbn [negb]. run. simpl.
  change http.MethodPut with "PUT". fold endpoint. fold body. fold built.
  destruct (v2.request_of c ctx "PUT" endpoint body) as [request|err]; simpl; [|reflexivity].
  split.
  - destruct (v2.exchange c built _) as [response|err]; simpl; [|reflexivity].
    destruct (v2.status_error c (v2.Code response)); reflexivity.
  - intros response E R. rewrite E. simpl.
    rewrite (v2.status_error_2xx c _ R). reflexivity.
Qed.

(** C6: the payload with [Type] group and [GroupName] eng, all other fields
    empty, serializes to the JSON object with the members [type] and
    [groupname]; [Add] builds its request with that body, which holds the
    pair [groupname]: eng, and neither the key [projectId] nor the key
    [projectRoleId]. *)
Theorem Add_group_payload_body (ctx : context.Context) (filterID : Z) (t : Trace) :
  let payload := {| v2.Type_ := "group"; v2.ProjectID := "";
                    v2.GroupName := "eng"; v2.ProjectRoleID := "" |} in
  let members := [("type", json.String "group"); ("groupname", json.String "eng")] in
  json.Marshal payload = inl (json.Object members)
  /\ built_once t
       (snd (v2.FilterShareService.Add c on_nil SharePermissionScheme ctx filterID
               (Some payload) t))
       "POST" ("rest/api/2/filter/" ++ strconv.Itoa filterID ++ "/permission")
       (Some (json.Object members))
  /\ In ("groupname", json.String "eng") members
  /\ ~ In "projectId" (json.keys (json.Object members))
  /\ ~ In "projectRoleId" (json.keys (json.Object members)).
Proof.
  intros payload members. split; [reflexivity|]. split.
  - exact (FilterShare_Add_builds c on_nil SharePermissionScheme ctx filterID payload t).
  - simpl. repeat split; auto; intros [H|[H|[]]]; discriminate.
Qed.

(** C7: for every [filterID] and [permissionID], [Gets] and [Add] build
    their one request for [rest/api/2/filter/{filterID}/permission], and
    [Get] and [Delete] for
    [rest/api/2/filter/{filterID}/permission/{permissionID}]; neither
    endpoint has a question mark in it, so no query parameter is
    appended.  [Add] builds it for every payload [content] that is not nil;
    for any [payload], nil included, it builds that request or, when the
    payload cannot be serialized, none. *)
Theorem filter_permission_paths (ctx : context.Context) (filterID permissionID : Z)
    (content : v2.PermissionFilterPayloadScheme)
    (payload : option v2.PermissionFilterPayloadScheme) (t : Trace) :
  let collection := "rest/api/2/filter/" ++ strconv.Itoa filterID ++ "/permission" in
  let item := "rest/api/2/filter/" ++ strconv.Itoa filterID ++ "/permission/"
              ++ strconv.Itoa permissionID in
  built_once t (snd (v2.FilterShareService.Gets c SharePermissionScheme ctx filterID t))
    "GET" collection None
  /\ (exists body,
        built_once t
          (snd (v2.FilterShareService.Add c on_nil SharePermissionScheme ctx filterID
                  (Some content) t))
          "POST" collection (Some body))
  /\ (snd (v2.FilterShareService.Add c on_nil SharePermissionScheme ctx filterID payload t) = t
      \/ exists body,
           built_once t
             (snd (v2.FilterShareService.Add c on_nil SharePermissionScheme ctx filterID
                     payload t))
             "POST" collection body)
  /\ built_once t
       (snd (v2.FilterShareService.Get c SharePermissionScheme ctx filterID permissionID t))
       "GET" item None
  /\ built_once t (snd (v2.FilterShareService.Delete c ctx filterID permissionID t))
       "DELETE" item None
  /\ strings.ContainsByte collection "?" = false
  /\ strings.ContainsByte item "?" = false.
Proof.
  intros collection item.
  repeat match goal with |- _ /\ _ => split end.
  - apply FilterShare_Gets_builds.
  - eexists. apply FilterShare_Add_builds.
  - apply FilterShare_Add_path.
  - apply FilterShare_Get_builds.
  - apply FilterShare_Delete_builds.
  - unfold collection. simpl. rewrite ContainsByte_app, Itoa_no_question. reflexivity.
  - unfold item. simpl. rewrite ContainsByte_app, Itoa_no_question. simpl.
    apply Itoa_no_question.
Qed.

(** C8: when [versionID] is empty or [versionMoveIssuesTo] is empty,
    [Merge] returns the no-version-ID error and leaves the trace as it was:
    no request is built and none is sent. *)
Theorem Merge_rejects_empty_version (ctx : context.Context)
    (versionID versionMoveIssuesTo : string) (t : Trace) :
  versionID = "" \/ versionMoveIssuesTo = "" ->
  fst (v2.ProjectVersionService.Merge c ctx versionID versionMoveIssuesTo t)
  = Some (None, no_version)
  /\ no_network t (snd (v2.ProjectVersionService.Merge c ctx versionID versionMoveIssuesTo t)).
Proof.
  intro H. rewrite (Merge_invalid c ctx versionID versionMoveIssuesTo t H).
  split; reflexivity.
Qed.

(** C9: an optional query parameter is in the query string of the built
    endpoint exactly when the caller supplied it.  [IssueMetadataService.Get]
    writes [overrideEditableFlag] and [overrideScreenSecurity] exactly when
    the flag is true, and no query string at all when both are false;
    [ProjectVersionService.Get] writes [expand] exactly when the list is not
    empty; [ProjectVersionService.Search] writes [expand], [query],
    [status] and [orderBy] exactly when options are given and the field is
    not empty; [IssueMetadataService.Create] writes each of its five keys
    exactly when options are given and the field is not empty. *)
Theorem optional_query_parameters (ctx : context.Context) (t : Trace) :
  (forall issueKeyOrID overrideScreenSecurity overrideEditableFlag,
      issueKeyOrID <> "" ->
      let query := url.Encode (v2.IssueMetadataService.Get_params
                                 overrideScreenSecurity overrideEditableFlag) in
      built_once t
        (snd (v2.IssueMetadataService.Get c gjson_Result gjson_Result_zero gjson_ParseBytes
                ctx issueKeyOrID overrideScreenSecurity overrideEditableFlag t))
        "GET"
        ("rest/api/2/issue/" ++ issueKeyOrID ++ "/editmeta"
         ++ (if overrideScreenSecurity || overrideEditableFlag then "?" ++ query else ""))
        None
      /\ (In "overrideEditableFlag" (url.query_keys query) <-> overrideEditableFlag = true)
      /\ (In "overrideScreenSecurity" (url.query_keys query)
          <-> overrideScreenSecurity = true))
  /\ (forall versionID expand,
        versionID <> "" ->
        let query := url.Encode (v2.ProjectVersionService.Get_params expand) in
        built_once t
          (snd (v2.ProjectVersionService.Get c VersionScheme ctx versionID expand t))
          "GET"
          (match expand with
           | [] => "rest/api/2/version/" ++ versionID
           | _ => "rest/api/2/version/" ++ versionID ++ "?" ++ query
           end)
          None
        /\ (In "expand" (url.query_keys query) <-> expand <> []))
  /\ (forall projectKeyOrID options startAt maxResults,
        projectKeyOrID <> "" ->
        let query := url.Encode (v2.ProjectVersionService.Search_params
                                   options startAt maxResults) in
        built_once t
          (snd (v2.ProjectVersionService.Search c VersionPageScheme ctx projectKeyOrID
                  options startAt maxResults t))
          "GET" ("rest/api/2/project/" ++ projectKeyOrID ++ "/version?" ++ query) None
        /\ (In "expand" (url.query_keys query)
            <-> exists o, options = Some o /\ models.Expand o <> [])
        /\ (In "query" (url.query_keys query)
            <-> exists o, options = Some o /\ models.Query o <> "")
        /\ (In "status" (url.query_keys query)
            <-> exists o, options = Some o /\ models.Status o <> "")
        /\ (In "orderBy" (url.query_keys query)
            <-> exists o, options = Some o /\ models.OrderBy o <> ""))
  /\ (forall opts,
        let query := url.Encode (v2.IssueMetadataService.query_Values opts) in
        built_once t
          (snd (v2.IssueMetadataService.Create c gjson_Result gjson_Result_zero
                  gjson_ParseBytes ctx opts t))
          "GET" ("rest/api/2/issue/createmeta?" ++ query) None
        /\ (In "projectIds" (url.query_keys query)
            <-> exists o, opts = Some o /\ v2.ProjectIDs o <> [])
        /\ (In "projectKeys" (url.query_keys query)
            <-> exists o, opts = Some o /\ v2.ProjectKeys o <> [])
        /\ (In "issuetypeIds" (url.query_keys query)
            <-> exists o, opts = Some o /\ v2.IssueTypeIDs o <> [])
        /\ (In "issuetypeNames" (url.query_keys query)
            <-> exists o, opts = Some o /\ v2.IssueTypeNames o <> [])
        /\ (In "expand" (url.query_keys query)
            <-> exists o, opts = Some o /\ v2.Expand o <> "")).
Proof.
  split; [|split; [|split]].
  - intros key security editable N query. split; [|split].
    + rewrite <- Metadata_Get_endpoint_shape. now apply Metadata_Get_builds.
    + unfold query. rewrite In_query_keys_Encode, Metadata_Get_params_keys.
      split; [intros [[_ H]|[H _]]; [exact H|discriminate] | auto].
    + unfold query. rewrite In_query_keys_Encode, Metadata_Get_params_keys.
      split; [intros [[H _]|[_ H]]; [discriminate|exact H] | auto].
  - intros versionID expand N query. split.
    + pose proof (Get_builds c VersionScheme ctx versionID expand t N) as B.
      rewrite Get_endpoint_shape in B. exact B.
    + unfold query. rewrite In_query_keys_Encode.
      destruct expand as [|e expand]; simpl; split; intro H;
        try contradiction; try discriminate; auto; now elim H.
  - intros key options startAt maxResults N query. split.
    + now apply Search_builds.
    + unfold query. rewrite !In_query_keys_Encode, !Search_params_keys.
      repeat split;
        try (intros [H|[H|[[H E]|[[H E]|[[H E]|[H E]]]]]]; try discriminate H; exact E);
        intro E; auto 10.
  - intros opts query. split.
    + apply Metadata_Create_builds.
    + unfold query. rewrite !In_query_keys_Encode, !query_Values_keys.
      repeat split;
        try (intros [o [E [[H K]|[[H K]|[[H K]|[[H K]|[H K]]]]]]]; try discriminate H;
             exists o; split; [exact E | exact K]);
        intros [o [E K]]; exists o; (split; [exact E|]); auto 10.
Qed.

(** C10: a method that fails its pre-flight validation returns nothing but
    the error: [SetScope] with a scope outside the enumeration, [Search]
    and [Gets] with an empty project key, [Merge] with an empty version ID
    and [IssueMetadataService.Get] with an empty issue key return a nil
    response envelope, and a nil or empty result where they have one. *)
Theorem validation_failure_returns_zero_values (ctx : context.Context) (t : Trace) :
  (forall scope,
      ~ In scope ["GLOBAL"; "AUTHENTICATED"; "PRIVATE"] ->
      exists err : error,
        fst (v2.FilterShareService.SetScope c on_nil ctx scope t) = Some (None, Some err))
  /\ (forall options startAt maxResults,
        fst (v2.ProjectVersionService.Search c VersionPageScheme ctx "" options
               startAt maxResults t)
        = Some (None, None, no_project))
  /\ fst (v2.ProjectVersionService.Gets c VersionScheme ctx "" t) = Some ([], None, no_project)
  /\ (forall versionID versionMoveIssuesTo,
        versionID = "" \/ versionMoveIssuesTo = "" ->
        fst (v2.ProjectVersionService.Merge c ctx versionID versionMoveIssuesTo t)
        = Some (None, no_version))
  /\ (forall overrideScreenSecurity overrideEditableFlag,
        fst (v2.IssueMetadataService.Get c gjson_Result gjson_Result_zero gjson_ParseBytes
               ctx "" overrideScreenSecurity overrideEditableFlag t)
        = Some (gjson_Result_zero, None, no_issue)).
Proof.
  repeat match goal with |- _ /\ _ => split end; try reflexivity.
  - intros scope H. rewrite (SetScope_invalid c on_nil ctx scope t H). eexists. reflexivity.
  - intros versionID versionMoveIssuesTo H.
    now rewrite (Merge_invalid c ctx versionID versionMoveIssuesTo t H).
Qed.

End Claims.

(** * The claims on concrete calls *)

(** C1, as stated, fails: with an empty issue key [WatcherService.Get]
    returns a nil error after it built and sent a request for
    [rest/api/3/issue//watchers], and with the filter ID zero
    [FilterShareService.Gets] returns a nil error after it built and sent a
    request for [rest/api/2/filter/0/permission]. *)
Lemma unchecked_identifier_counterexample :
  jira.WatcherService.Get demo_jira_client (U_watchers := demo_decoder _)
    context.Background "" []
  = (Some (jira.new_IssueWatcherScheme,
           Some {| jira.StatusCode := 200;
                   jira.Endpoint := "https://demo.atlassian.net/rest/api/3/issue//watchers";
                   jira.BodyAsBytes := "{}" |},
           None),
     [Built "GET" "rest/api/3/issue//watchers" None;
      Sent {| http.Method := "GET";
              http.URL := "https://demo.atlassian.net/rest/api/3/issue//watchers";
              http.Header_ := [("Content-Type", ["application/json"])];
              http.Body := None |}])
  /\ v2.FilterShareService.Gets demo_client unit (U_permissions := demo_decoder _)
       context.Background 0 []
     = (Some ([],
              Some {| v2.Code := 200;
                      v2.Endpoint := "https://demo.atlassian.net/rest/api/2/filter/0/permission";
                      v2.Bytes := "{}" |},
              None),
        [Built "GET" "rest/api/2/filter/0/permission" None;
         Sent {| http.Method := "GET";
                 http.URL := "https://demo.atlassian.net/rest/api/2/filter/0/permission";
                 http.Header_ := [("Accept", ["application/json"])];
                 http.Body := None |}]).
Proof.
  split; reflexivity.
Qed.

(** C3, as stated, fails: for the project key KP, [startAt = 0],
    [maxResults = 50] and no options, the one endpoint [Search] builds is
    [rest/api/2/project/KP/version?maxResults=50&startAt=0], which does not
    contain [startAt=0&maxResults=50]. *)
Lemma Search_query_order_counterexample :
  built_endpoints
    (snd (v2.ProjectVersionService.Search demo_client unit (U_page := demo_decoder _)
            context.Background "KP" None 0 50 []))
  = ["rest/api/2/project/KP/version?maxResults=50&startAt=0"]
  /\ strings.Contains "rest/api/2/project/KP/version?maxResults=50&startAt=0"
                      "startAt=0&maxResults=50" = false.
Proof.
  split; reflexivity.
Qed.

(** The default query of [Search], on the project key KP without options. *)
Lemma Search_default_query_witness :
  built_once []
    (snd (v2.ProjectVersionService.Search demo_client unit (U_page := demo_decoder _)
            context.Background "KP" None 0 50 []))
    "GET" "rest/api/2/project/KP/version?maxResults=50&startAt=0" None.
Proof.
  destruct (Search_default_query demo_client unit (U_page := demo_decoder _)
              context.Background "KP" None [] (or_introl eq_refl)) as (_ & _ & _ & _ & _ & _ & H).
  assert (N : "KP" <> "") by discriminate.
  exact (H N).
Defined.

(** [SetScope] on a lowercase scope and on the empty scope. *)
Lemma SetScope_rejects_invalid_scope_witness :
  fst (v2.FilterShareService.SetScope demo_client demo_on_nil context.Background "global" [])
  = Some (None, Some (Formatted
      "invalid scope, please provide one of the following: GLOBAL,AUTHENTICATED,PRIVATE"))
  /\ fst (v2.FilterShareService.SetScope demo_client demo_on_nil context.Background "" [])
     = Some (None, Some (Formatted
         "invalid scope, please provide one of the following: GLOBAL,AUTHENTICATED,PRIVATE")).
Proof.
  split.
  - apply (SetScope_rejects_invalid_scope demo_client demo_on_nil context.Background
             "global" []).
    simpl. intros [H|[H|[H|[]]]]; discriminate H.
  - apply (SetScope_rejects_invalid_scope demo_client demo_on_nil context.Background "" []).
    simpl. intros [H|[H|[H|[]]]]; discriminate H.
Defined.

(** [SetScope] on the scope PRIVATE: the whole outcome. *)
Lemma SetScope_sends_one_put_witness :
  v2.FilterShareService.SetScope demo_client demo_on_nil context.Background "PRIVATE" []
  = (Some (Some {| v2.Code := 200;
                   v2.Endpoint :=
                     "https://demo.atlassian.net/rest/api/2/filter/defaultShareScope";
                   v2.Bytes := "{}" |},
           None),
     [Built "PUT" "rest/api/2/filter/defaultShareScope"
            (Some (json.Object [("scope", json.String "PRIVATE")]));
      Sent {| http.Method := "PUT";
              http.URL := "https://demo.atlassian.net/rest/api/2/filter/defaultShareScope";
              http.Header_ := [("Accept", ["application/json"]);
                               ("Content-Type", ["application/json"])];
              http.Body := Some (json.Object [("scope", json.String "PRIVATE")]) |}]).
Proof.
  pose proof (SetScope_sends_one_put demo_client demo_on_nil context.Background "PRIVATE" []
                (or_intror (or_intror (or_introl eq_refl)))) as H.
  simpl in H. destruct H as [Htrace Hvalue].
  apply injective_projections.
  - apply (Hvalue _ eq_refl). simpl. lia.
  - exact Htrace.
Defined.

(** [Merge] with either identifier empty. *)
Lemma Merge_rejects_empty_version_witness :
  fst (v2.ProjectVersionService.Merge demo_client context.Background "" "10001" [])
  = Some (None, Some (Model models.ErrNoVersionIDError))
  /\ fst (v2.ProjectVersionService.Merge demo_client context.Background "10000" "" [])
     = Some (None, Some (Model models.ErrNoVersionIDError)).
Proof.
  split.
  - apply (Merge_rejects_empty_version demo_client context.Background "" "10001" []).
    left. reflexivity.
  - apply (Merge_rejects_empty_version demo_client context.Background "10000" "" []).
    right. reflexivity.
Defined.

(** Optional parameters on three calls: the endpoints they build. *)
Lemma optional_query_parameters_witness :
  built_once []
    (snd (v2.IssueMetadataService.Get demo_client string "" (fun bytes => bytes)
            context.Background "KP-1" false true []))
    "GET" "rest/api/2/issue/KP-1/editmeta?overrideEditableFlag=true" None
  /\ built_once []
       (snd (v2.ProjectVersionService.Get demo_client unit (U_version := demo_decoder _)
               context.Background "10000" ["operations"; "issuesstatus"] []))
       "GET" "rest/api/2/version/10000?expand=operations%2Cissuesstatus" None
  /\ built_once []
       (snd (v2.ProjectVersionService.Search demo_client unit (U_page := demo_decoder _)
               context.Background "KP"
               (Some {| models.OrderBy := "name"; models.Query := "";
                        models.Status := "released"; models.Expand := [] |})
               0 50 []))
       "GET" "rest/api/2/project/KP/version?maxResults=50&orderBy=name&startAt=0&status=released"
       None.
Proof.
  destruct (optional_query_parameters demo_client unit unit string "" (fun bytes => bytes)
              (U_version := demo_decoder _) (U_page := demo_decoder _) context.Background [])
    as (Hmeta & Hget & Hsearch & _).
  assert (N1 : "KP-1" <> "") by discriminate.
  assert (N2 : "10000" <> "") by discriminate.
  assert (N3 : "KP" <> "") by discriminate.
  split; [|split].
  - exact (proj1 (Hmeta "KP-1" false true N1)).
  - exact (proj1 (Hget "10000" ["operations"; "issuesstatus"] N2)).
  - exact (proj1 (Hsearch "KP"
                    (Some {| models.OrderBy := "name"; models.Query := "";
                             models.Status := "released"; models.Expand := [] |})
                    0%Z 50%Z N3)).
Defined.

(** What [SetScope] returns on a lowercase scope and [Merge] on an empty
    target version. *)
Lemma validation_failure_returns_zero_values_witness :
  (exists err : error,
      fst (v2.FilterShareService.SetScope demo_client demo_on_nil context.Background
             "private" [])
      = Some (None, Some err))
  /\ fst (v2.ProjectVersionService.Merge demo_client context.Background "10000" "" [])
     = Some (None, Some (Model models.ErrNoVersionIDError)).
Proof.
  destruct (validation_failure_returns_zero_values demo_client demo_on_nil unit unit
              string "" (fun bytes => bytes)
              (U_versions := demo_decoder _) (U_page := demo_decoder _) context.Background [])
    as (Hscope & _ & _ & Hmerge & _).
  split.
  - apply Hscope. simpl. intros [H|[H|[H|[]]]]; discriminate H.
  - apply Hmerge. right. reflexivity.
Defined.

(** * Further properties of the services *)

(** ** What each method exchanges with the server *)

Ltac at_endpoint :=
  match goal with
  | |- exchanged _ _ _ ?endpoint _ _ _ _ => generalize endpoint; intro
  end.

Ltac exchange :=
  unfold exchanged, with_headers;
  cbv delta [http.MethodGet http.MethodPost http.MethodPut http.MethodDelete];
  effects; rewrite <- ?app_assoc; reflexivity.

Section Exchanges.

Variable c : v2.Client.
Variable jc : jira.Client.
Variable on_nil : option Reader * option error.
Variable SharePermissionScheme : Type.
Variables VersionScheme VersionPageScheme VersionPayloadScheme : Type.
Variables VersionIssueCountsScheme VersionUnresolvedIssuesCountScheme : Type.
Variable gjson_Result : Type.
Variable gjson_Result_zero : gjson_Result.
Variable gjson_ParseBytes : string -> gjson_Result.
Context {U_scope : json.Unmarshaler (option v2.ResponseScheme)}.
Context {U_permission : json.Unmarshaler (option SharePermissionScheme)}.
Context {U_permissions : json.Unmarshaler (list (option SharePermissionScheme))}.
Context {M_payload : json.Marshaler VersionPayloadScheme}.
Context {U_versions : json.Unmarshaler (list (option VersionScheme))}.
Context {U_version : json.Unmarshaler (option VersionScheme)}.
Context {U_page : json.Unmarshaler (option VersionPageScheme)}.
Context {U_counts : json.Unmarshaler (option VersionIssueCountsScheme)}.
Context {U_unresolved : json.Unmarshaler (option VersionUnresolvedIssuesCountScheme)}.
Context {U_watchers : json.Unmarshaler (option jira.IssueWatcherScheme)}.


(** X2: with non-empty identifiers, the reading methods of
    [ProjectVersionService] and [Merge] build one request for their
    endpoint, without a body, and send it at most once with the Accept
    header set; when the client cannot build the request its error comes
    back with nil values and nothing is sent.  [Gets] reads
    [project/{key}/versions], [Search] reads [project/{key}/version] with
    its query, [Merge] puts to [version/{id}/mergeto/{target}], and the two
    counters read [version/{id}/relatedIssueCounts] and
    [version/{id}/unresolvedIssueCount]. *)
Theorem ProjectVersion_exchanges (ctx : context.Context)
    (projectKeyOrID versionID versionMoveIssuesTo : string)
    (options : option models.VersionGetsOptions) (startAt maxResults : Z)
    (expand : list string) (t : Trace) :
  projectKeyOrID <> "" -> versionID <> "" -> versionMoveIssuesTo <> "" ->
  let accept := [("Accept", "application/json")] in
  let versions := "rest/api/2/project/" ++ projectKeyOrID ++ "/versions" in
  let page := "rest/api/2/project/" ++ projectKeyOrID ++ "/version?"
              ++ url.Encode (v2.ProjectVersionService.Search_params options startAt maxResults) in
  let version := match expand with
                 | [] => "rest/api/2/version/" ++ versionID
                 | _ => "rest/api/2/version/" ++ versionID ++ "?expand="
                        ++ url.QueryEscape (strings.Join expand ",")
                 end in
  let merge := "rest/api/2/version/" ++ versionID ++ "/mergeto/" ++ versionMoveIssuesTo in
  let related := "rest/api/2/version/" ++ versionID ++ "/relatedIssueCounts" in
  let unresolved := "rest/api/2/version/" ++ versionID ++ "/unresolvedIssueCount" in
  exchanged (v2.ProjectVersionService.Gets c VersionScheme ctx projectKeyOrID t) t
    "GET" versions None (v2.request_of c ctx "GET" versions None) accept
    (fun err => ([], None, Some err))
  /\ exchanged
       (v2.ProjectVersionService.Search c VersionPageScheme ctx projectKeyOrID options
          startAt maxResults t)
       t "GET" page None (v2.request_of c ctx "GET" page None) accept
       (fun err => (None, None, Some err))
  /\ exchanged (v2.ProjectVersionService.Get c VersionScheme ctx versionID expand t) t
       "GET" version None (v2.request_of c ctx "GET" version None) accept
       (fun err => (None, None, Some err))
  /\ exchanged (v2.ProjectVersionService.Merge c ctx versionID versionMoveIssuesTo t) t
       "PUT" merge None (v2.request_of c ctx "PUT" merge None) accept
       (fun err => (None, Some err))
  /\ exchanged
       (v2.ProjectVersionService.RelatedIssueCounts c VersionIssueCountsScheme ctx versionID t)
       t "GET" related None (v2.request_of c ctx "GET" related None) accept
       (fun err => (None, None, Some err))
  /\ exchanged
       (v2.ProjectVersionService.UnresolvedIssueCount c VersionUnresolvedIssuesCountScheme
          ctx versionID t)
       t "GET" unresolved None (v2.request_of c ctx "GET" unresolved None) accept
       (fun err => (None, None, Some err)).
Proof.
  intros Hkey Hid Hto. cbv zeta.
  pose proof (length_0_nonempty _ Hkey) as Ekey.
  pose proof (length_0_nonempty _ Hid) as Eid.
  pose proof (length_0_nonempty _ Hto) as Eto.
  repeat match goal with |- _ /\ _ => split end.
  - unfold v2.ProjectVersionService.Gets. rewrite Ekey.
    change (fmt.Sprintf "rest/api/2/project/%v/versions" [fmt.Str projectKeyOrID])
      with ("rest/api/2/project/" ++ projectKeyOrID ++ "/versions").
    at_endpoint. exchange.
  - unfold v2.ProjectVersionService.Search. rewrite Ekey.
    replace (fmt.Sprintf "rest/api/2/project/%v/version?%v" _)
      with ("rest/api/2/project/" ++ projectKeyOrID ++ "/version?"
            ++ url.Encode (v2.ProjectVersionService.Search_params options startAt maxResults))
      by (simpl; now rewrite append_empty_r).
    at_endpoint. exchange.
  - unfold v2.ProjectVersionService.Get. rewrite Eid, Get_endpoint_shape.
    replace (match expand with
             | [] => "rest/api/2/version/" ++ versionID
             | _ :: _ => "rest/api/2/version/" ++ versionID ++ "?"
                         ++ url.Encode (v2.ProjectVersionService.Get_params expand)
             end)
      with (match expand with
            | [] => "rest/api/2/version/" ++ versionID
            | _ :: _ => "rest/api/2/version/" ++ versionID ++ "?expand="
                        ++ url.QueryEscape (strings.Join expand ",")
            end)
      by (destruct expand; reflexivity).
    at_endpoint. exchange.
  - unfold v2.ProjectVersionService.Merge. rewrite Eid, Eto.
    replace (fmt.Sprintf "rest/api/2/version/%v/mergeto/%v" _)
      with ("rest/api/2/version/" ++ versionID ++ "/mergeto/" ++ versionMoveIssuesTo)
      by (simpl; now rewrite append_empty_r).
    at_endpoint. exchange.
  - unfold v2.ProjectVersionService.RelatedIssueCounts. rewrite Eid.
    change (fmt.Sprintf "rest/api/2/version/%v/relatedIssueCounts" [fmt.Str versionID])
      with ("rest/api/2/version/" ++ versionID ++ "/relatedIssueCounts").
    at_endpoint. exchange.
  - unfold v2.ProjectVersionService.UnresolvedIssueCount. rewrite Eid.
    change (fmt.Sprintf "rest/api/2/version/%v/unresolvedIssueCount" [fmt.Str versionID])
      with ("rest/api/2/version/" ++ versionID ++ "/unresolvedIssueCount").
    at_endpoint. exchange.
Qed.

(** X3: [Create] and [Update] serialize the payload before anything
    else reaches the client.  When serialization fails, its error comes
    back with nil values and no request is built.  Otherwise one request
    is built with the document as body, a POST to [rest/api/2/version] for
    [Create] and a PUT to [rest/api/2/version/{id}] for [Update] with a
    non-empty ID, and it is sent at most once with Accept and Content-Type
    set. *)
Theorem ProjectVersion_writes (ctx : context.Context) (versionID : string)
    (content : VersionPayloadScheme) (t : Trace) :
  versionID <> "" ->
  let json_headers := [("Accept", "application/json"); ("Content-Type", "application/json")] in
  let version := "rest/api/2/version/" ++ versionID in
  match json.Marshal content with
  | inr err =>
      v2.ProjectVersionService.Create c on_nil VersionScheme VersionPayloadScheme ctx
        (Some content) t
      = (Some (None, None, Some err), t)
      /\ v2.ProjectVersionService.Update c on_nil VersionScheme VersionPayloadScheme ctx
           versionID (Some content) t
         = (Some (None, None, Some err), t)
  | inl document =>
      exchanged
        (v2.ProjectVersionService.Create c on_nil VersionScheme VersionPayloadScheme ctx
           (Some content) t)
        t "POST" "rest/api/2/version" (Some document)
        (v2.request_of c ctx "POST" "rest/api/2/version" (Some document)) json_headers
        (fun err => (None, None, Some err))
      /\ exchanged
           (v2.ProjectVersionService.Update c on_nil VersionScheme VersionPayloadScheme ctx
              versionID (Some content) t)
           t "PUT" version (Some document)
           (v2.request_of c ctx "PUT" version (Some document)) json_headers
           (fun err => (None, None, Some err))
  end.
Proof.
  intros Hid. cbv zeta. pose proof (length_0_nonempty _ Hid) as Eid.
  unfold v2.ProjectVersionService.Create, v2.ProjectVersionService.Update.
  rewrite Eid. unfold v2.transformStructToReader.
  change (fmt.Sprintf "rest/api/2/version/%v" [fmt.Str versionID])
    with ("rest/api/2/version/" ++ versionID ++ "").
  rewrite append_empty_r.
  generalize ("rest/api/2/version/" ++ versionID). intro version.
  destruct (json.Marshal content) as [document|err]; [|split; reflexivity].
  split; exchange.
Qed.

(** X4: [IssueMetadataService.Get] with a non-empty issue key and
    [Create] build one GET without a body and send it at most once with
    the Accept header set.  [Get] writes a question mark only when a flag
    is set; [Create] always writes one, even with nil options.  When the
    client cannot build the request, its error comes back with the zero
    result and a nil envelope, and nothing is sent. *)
Theorem IssueMetadata_exchanges (ctx : context.Context) (issueKeyOrID : string)
    (overrideScreenSecurity overrideEditableFlag : bool)
    (opts : option v2.IssueMetadataCreateOptions) (t : Trace) :
  issueKeyOrID <> "" ->
  let accept := [("Accept", "application/json")] in
  let editmeta :=
    "rest/api/2/issue/" ++ issueKeyOrID ++ "/editmeta"
    ++ (if overrideScreenSecurity || overrideEditableFlag
        then "?" ++ url.Encode (v2.IssueMetadataService.Get_params
                                  overrideScreenSecurity overrideEditableFlag)
        else "") in
  let createmeta := "rest/api/2/issue/createmeta?"
                    ++ url.Encode (v2.IssueMetadataService.query_Values opts) in
  exchanged
    (v2.IssueMetadataService.Get c gjson_Result gjson_Result_zero gjson_ParseBytes ctx
       issueKeyOrID overrideScreenSecurity overrideEditableFlag t)
    t "GET" editmeta None (v2.request_of c ctx "GET" editmeta None) accept
    (fun err => (gjson_Result_zero, None, Some err))
  /\ exchanged
       (v2.IssueMetadataService.Create c gjson_Result gjson_Result_zero gjson_ParseBytes ctx
          opts t)
       t "GET" createmeta None (v2.request_of c ctx "GET" createmeta None) accept
       (fun err => (gjson_Result_zero, None, Some err)).
Proof.
  intros Hkey. cbv zeta. pose proof (length_0_nonempty _ Hkey) as Ekey. split.
  - unfold v2.IssueMetadataService.Get. rewrite Ekey, Metadata_Get_endpoint_shape.
    at_endpoint. exchange.
  - unfold v2.IssueMetadataService.Create.
    replace (v2.IssueMetadataService.Create_endpoint opts)
      with ("rest/api/2/issue/createmeta?"
            ++ url.Encode (v2.IssueMetadataService.query_Values opts))
      by (unfold v2.IssueMetadataService.Create_endpoint; simpl; now rewrite append_empty_r).
    at_endpoint. exchange.
Qed.

(** X5: for every issue key, the empty one included, the three watcher
    methods build one request for [rest/api/3/issue/{key}/watchers]
    without a body (GET, POST, DELETE) and send it at most once with the
    Content-Type header set, and no Accept header of their own.  When the
    client cannot build the request, its error comes back with nil values
    and nothing is sent. *)
Theorem Watcher_exchanges (ctx : context.Context) (issueKeyOrID : string) (t : Trace) :
  let watchers := "rest/api/3/issue/" ++ issueKeyOrID ++ "/watchers" in
  let content_type := [("Content-Type", "application/json")] in
  exchanged (jira.WatcherService.Get jc ctx issueKeyOrID t) t
    "GET" watchers None (jira.request_of jc ctx "GET" watchers None) content_type
    (fun err => (None, None, Some err))
  /\ exchanged (jira.WatcherService.Add jc ctx issueKeyOrID t) t
       "POST" watchers None (jira.request_of jc ctx "POST" watchers None) content_type
       (fun err => (None, Some err))
  /\ exchanged (jira.WatcherService.Delete jc ctx issueKeyOrID t) t
       "DELETE" watchers None (jira.request_of jc ctx "DELETE" watchers None) content_type
       (fun err => (None, Some err)).
Proof.
  cbv zeta.
  unfold jira.WatcherService.Get, jira.WatcherService.Add, jira.WatcherService.Delete.
  change (fmt.Sprintf "rest/api/3/issue/%v/watchers" [fmt.Str issueKeyOrID])
    with ("rest/api/3/issue/" ++ issueKeyOrID ++ "/watchers").
  generalize ("rest/api/3/issue/" ++ issueKeyOrID ++ "/watchers").
  intro watchers. repeat split; exchange.
Qed.

(** X6: [WatcherService.Get] dereferences the response once the error is
    nil: it panics exactly when the client built the request and the round
    trip returned a nil response together with a nil error.  When the
    round trip returns an error, the result is nil and the response and
    the error are passed on.  [Add] and [Delete] never panic. *)
Theorem Watcher_Get_nil_response (ctx : context.Context) (issueKeyOrID : string) (t : Trace) :
  let watchers := "rest/api/3/issue/" ++ issueKeyOrID ++ "/watchers" in
  let built := (t ++ [Built "GET" watchers None])%list in
  (fst (jira.WatcherService.Get jc ctx issueKeyOrID t) = None
   <-> exists request,
         jira.request_of jc ctx "GET" watchers None = inl request
         /\ jira.exchange jc built (http.Header_Set request "Content-Type" "application/json")
            = (None, None))
  /\ (forall request response err,
        jira.request_of jc ctx "GET" watchers None = inl request ->
        jira.exchange jc built (http.Header_Set request "Content-Type" "application/json")
        = (response, Some err) ->
        fst (jira.WatcherService.Get jc ctx issueKeyOrID t) = Some (None, response, Some err))
  /\ fst (jira.WatcherService.Add jc ctx issueKeyOrID t) <> None
  /\ fst (jira.WatcherService.Delete jc ctx issueKeyOrID t) <> None.
Proof.
  cbv zeta.
  unfold jira.WatcherService.Get, jira.WatcherService.Add, jira.WatcherService.Delete.
  change (fmt.Sprintf "rest/api/3/issue/%v/watchers" [fmt.Str issueKeyOrID])
    with ("rest/api/3/issue/" ++ issueKeyOrID ++ "/watchers").
  generalize ("rest/api/3/issue/" ++ issueKeyOrID ++ "/watchers").
  intro watchers.
  cbv delta [http.MethodGet http.MethodPost http.MethodDelete]. run. simpl.
  repeat match goal with |- _ /\ _ => split end.
  - destruct (jira.request_of jc ctx "GET" watchers None) as [request|err]; simpl.
    + destruct (jira.exchange jc _ _) as [[received|] [err|]] eqn:E; simpl.
      * split; [discriminate | intros [r [R X]]; inversion R; subst r; congruence].
      * destruct (json.Unmarshal _ _); simpl.
        split; [discriminate | intros [r [R X]]; inversion R; subst r; congruence].
      * split; [discriminate | intros [r [R X]]; inversion R; subst r; congruence].
      * split; [intros _; exists request; split; [reflexivity | exact E] | reflexivity].
    + split; [discriminate | intros [r [R _]]; discriminate R].
  - intros request response err R X. rewrite R. simpl. rewrite X. reflexivity.
  - destruct (jira.request_of jc ctx "POST" watchers None); simpl; [|discriminate].
    destruct (jira.exchange jc _ _) as [response err]. discriminate.
  - destruct (jira.request_of jc ctx "DELETE" watchers None); simpl; [|discriminate].
    destruct (jira.exchange jc _ _) as [response err]. discriminate.
Qed.


End Exchanges.

(** ** Headers *)




(** ** Escaping *)

Lemma space_is_escaped (c : ascii) : Ascii.eqb c " " = true -> url.shouldEscape c = true.
Proof.
  intro H. apply Ascii.eqb_eq in H. subst c. reflexivity.
Qed.

Lemma QueryEscape_unreserved (s : string) :
  all_bytes unreserved s = true -> url.QueryEscape s = s.
Proof.
  induction s as [|c s IH]; simpl; [reflexivity|].
  intro H. apply andb_prop in H. destruct H as [Hc Hs].
  unfold unreserved in Hc. apply negb_true_iff in Hc.
  destruct (Ascii.eqb c " ") eqn:E.
  - apply space_is_escaped in E. congruence.
  - rewrite Hc, (IH Hs). reflexivity.
Qed.




Lemma string_of_uint_unreserved (d : Decimal.uint) :
  all_bytes unreserved (NilEmpty.string_of_uint d) = true.
Proof.
  induction d; simpl; auto.
Qed.

Lemma Itoa_unreserved (i : Z) : all_bytes unreserved (strconv.Itoa i) = true.
Proof.
  unfold strconv.Itoa. destruct (Z.to_int i); simpl; apply string_of_uint_unreserved.
Qed.

Lemma QueryEscape_Itoa (i : Z) : url.QueryEscape (strconv.Itoa i) = strconv.Itoa i.
Proof.
  apply QueryEscape_unreserved, Itoa_unreserved.
Qed.

(** ** The query string of [Search] *)

(** X10: the query string [Search] sends, for all inputs.  The pairs come
    in the order expand, maxResults, orderBy, query, startAt, status;
    [maxResults] and [startAt] are always there, with the offsets printed
    in decimal as given (a negative offset is sent as it is); [expand] is
    there when the list is not empty, even if its only element is the
    empty string, and the other three when the field is not empty. *)
Theorem Search_query_exact (options : option models.VersionGetsOptions)
    (startAt maxResults : Z) :
  let expand := match options with Some o => models.Expand o | None => [] end in
  let field (f : models.VersionGetsOptions -> string) :=
    match options with Some o => f o | None => "" end in
  url.Encode (v2.ProjectVersionService.Search_params options startAt maxResults)
  = strings.Join
      ((if Nat.eqb (List.length expand) 0 then []
        else [("expand=" ++ url.QueryEscape (strings.Join expand ","))%string])
       ++ [("maxResults=" ++ strconv.Itoa maxResults)%string]
       ++ optional_pair "orderBy" (field models.OrderBy)
       ++ optional_pair "query" (field models.Query)
       ++ [("startAt=" ++ strconv.Itoa startAt)%string]
       ++ optional_pair "status" (field models.Status))%list
      "&".
Proof.
  cbv zeta. unfold v2.ProjectVersionService.Search_params, optional_pair.
  pose proof (QueryEscape_Itoa startAt) as Es.
  pose proof (QueryEscape_Itoa maxResults) as Em.
  set (s := strconv.Itoa startAt) in *. set (m := strconv.Itoa maxResults) in *.
  clearbody s m.
  destruct options as [[orderBy query status expand]|];
    cbn [models.Expand models.Query models.Status models.OrderBy].
  - destruct (Nat.eqb (List.length expand) 0), (Nat.eqb (String.length query) 0),
      (Nat.eqb (String.length status) 0), (Nat.eqb (String.length orderBy) 0);
      cbn; rewrite Es, Em; reflexivity.
  - cbn. rewrite Es, Em. reflexivity.
Qed.

(** ** Query parameters as a map *)

Lemma keys_Add (v : url.Values) (key value : string) :
  map fst (url.Add v key value)
  = if existsb (String.eqb key) (map fst v) then map fst v
    else (map fst v ++ [key])%list.
Proof.
  induction v as [|[k vs] v IH]; simpl; [reflexivity|].
  rewrite (String.eqb_sym key k).
  destruct (String.eqb k key); simpl; [reflexivity|].
  rewrite IH. destruct (existsb (String.eqb key) (map fst v)); reflexivity.
Qed.

(** X11: [Add] behaves as an append on a map of slices.  The values under
    the key gain the new value at the end, the values under every other
    key stay as they were, and the keys stay distinct when they were. *)
Theorem Add_appends_value (v : url.Values) (key value other : string) :
  query_values (url.Add v key value) key = (query_values v key ++ [value])%list
  /\ (other <> key -> query_values (url.Add v key value) other = query_values v other)
  /\ (NoDup (map fst v) -> NoDup (map fst (url.Add v key value))).
Proof.
  repeat split.
  - induction v as [|[k vs] v IH]; simpl.
    + now rewrite String.eqb_refl.
    + destruct (String.eqb k key) eqn:E; simpl; rewrite E; [reflexivity | exact IH].
  - intro N. induction v as [|[k vs] v IH]; simpl.
    + destruct (String.eqb_spec key other) as [E|_]; [now elim N | reflexivity].
    + destruct (String.eqb_spec k key) as [E|_]; simpl.
      * subst k. destruct (String.eqb_spec key other) as [E|_]; [now elim N | reflexivity].
      * now rewrite IH.
  - intro D. rewrite keys_Add.
    destruct (existsb (String.eqb key) (map fst v)) eqn:E; [exact D|].
    apply NoDup_app; [exact D | constructor; [intros [] | constructor] |].
    intros k Hk [Hin|[]]. subst k.
    assert (X : existsb (String.eqb key) (map fst v) = true).
    { apply existsb_exists. exists key. split; [exact Hk | apply String.eqb_refl]. }
    congruence.
Qed.

(** ** The order of an encoded query *)

Lemma insert_key_Permutation (kv : string * list string) (v : url.Values) :
  Permutation (url.insert_key kv v) (kv :: v).
Proof.
  induction v as [|kv' v IH]; simpl; [reflexivity|].
  destruct (String.leb (fst kv) (fst kv')); [reflexivity|].
  rewrite IH. apply perm_swap.
Qed.

Lemma insert_key_Sorted (kv : string * list string) (v : url.Values) :
  Sorted (fun a b => String.leb (fst a) (fst b) = true) v ->
  Sorted (fun a b => String.leb (fst a) (fst b) = true) (url.insert_key kv v).
Proof.
  induction v as [|kv' v IH]; simpl; intro S.
  - repeat constructor.
  - destruct (String.leb (fst kv) (fst kv')) eqn:E.
    + constructor; [exact S | constructor; exact E].
    + inversion S as [|? ? S' H]; subst.
      constructor; [apply IH; exact S'|].
      destruct v as [|kv'' v]; simpl.
      * constructor. destruct (String.leb_total (fst kv) (fst kv')); congruence.
      * destruct (String.leb (fst kv) (fst kv'')).
        -- constructor. destruct (String.leb_total (fst kv) (fst kv')); congruence.
        -- inversion H; subst. constructor. assumption.
Qed.

(** X12: [Encode] writes the pairs in ascending bytewise order of their
    keys, whatever the order in which the keys were added, and it writes
    every key and value it holds exactly once: the keys read back from the
    encoded query are the escaped keys of the sorted entries, one per
    value, and the sorted entries are a rearrangement of the entries. *)
Theorem Encode_sorted_by_key (v : url.Values) :
  url.query_keys (url.Encode v) = url.encoded_keys (url.sort_keys v)
  /\ Permutation (url.sort_keys v) v
  /\ Sorted (fun a b => String.leb (fst a) (fst b) = true) (url.sort_keys v).
Proof.
  split; [apply query_keys_Encode|]. split.
  - induction v as [|kv v IH]; simpl; [reflexivity|].
    rewrite insert_key_Permutation. now constructor.
  - induction v as [|kv v IH]; simpl; [constructor|].
    now apply insert_key_Sorted.
Qed.

(** ** How often a key is written *)

Lemma count_encoded_keys_insert (key : string) (kv : string * list string) (v : url.Values) :
  count_occ string_dec (url.encoded_keys (url.insert_key kv v)) key
  = count_occ string_dec (url.encoded_keys (kv :: v)) key.
Proof.
  induction v as [|kv' v IH]; cbn [url.insert_key]; [reflexivity|].
  destruct (String.leb (fst kv) (fst kv')); [reflexivity|].
  rewrite (encoded_keys_cons kv'), count_occ_app, IH.
  rewrite !encoded_keys_cons, !count_occ_app. lia.
Qed.

Lemma count_encoded_keys_sort (key : string) (v : url.Values) :
  count_occ string_dec (url.encoded_keys (url.sort_keys v)) key
  = count_occ string_dec (url.encoded_keys v) key.
Proof.
  induction v as [|kv v IH]; cbn [url.sort_keys]; [reflexivity|].
  rewrite count_encoded_keys_insert, !encoded_keys_cons, !count_occ_app, IH. reflexivity.
Qed.

Lemma count_encoded_keys_Add (key : string) (v : url.Values) (k value : string) :
  count_occ string_dec (url.encoded_keys (url.Add v k value)) key
  = count_occ string_dec (url.encoded_keys v) key
    + (if string_dec (url.QueryEscape k) key then 1 else 0).
Proof.
  induction v as [|[k' values] v IH]; cbn [url.Add].
  - unfold url.encoded_keys. simpl.
    destruct (string_dec (url.QueryEscape k) key); reflexivity.
  - destruct (String.eqb_spec k' k) as [->|N].
    + rewrite !encoded_keys_cons, !count_occ_app. cbn [fst snd].
      rewrite map_app, count_occ_app. simpl.
      destruct (string_dec (url.QueryEscape k) key); lia.
    + rewrite !encoded_keys_cons, !count_occ_app, IH. lia.
Qed.

Lemma count_add_each (values : list string) (params : url.Values) (k key : string) :
  count_occ string_dec
    (url.encoded_keys (v2.IssueMetadataService.add_each params k values)) key
  = count_occ string_dec (url.encoded_keys params) key
    + (if string_dec (url.QueryEscape k) key then List.length values else 0).
Proof.
  unfold v2.IssueMetadataService.add_each.
  revert params. induction values as [|value values IH]; intro params; simpl.
  - destruct (string_dec (url.QueryEscape k) key); lia.
  - rewrite IH, count_encoded_keys_Add.
    destruct (string_dec (url.QueryEscape k) key); lia.
Qed.

(** X13: [IssueMetadataService.Create] writes one pair for each element
    of a list option, under the key of the list, and at most one pair
    for [expand]: in the query string it sends, [projectIds],
    [projectKeys], [issuetypeIds] and [issuetypeNames] occur as many times
    as their lists are long, and [expand] once when it is not empty. *)
Theorem Create_one_pair_per_value (o : v2.IssueMetadataCreateOptions) :
  let query := url.Encode (v2.IssueMetadataService.query_Values (Some o)) in
  let times key := count_occ string_dec (url.query_keys query) key in
  times "projectIds" = List.length (v2.ProjectIDs o)
  /\ times "projectKeys" = List.length (v2.ProjectKeys o)
  /\ times "issuetypeIds" = List.length (v2.IssueTypeIDs o)
  /\ times "issuetypeNames" = List.length (v2.IssueTypeNames o)
  /\ times "expand" = (if String.eqb (v2.Expand o) "" then 0 else 1).
Proof.
  cbv zeta. rewrite query_keys_Encode.
  unfold v2.IssueMetadataService.query_Values.
  destruct (String.eqb (v2.Expand o) ""); cbn [negb];
    rewrite !count_encoded_keys_sort, ?count_encoded_keys_Add, !count_add_each;
    simpl; repeat split; lia.
Qed.

(** ** When a query string is empty *)

Lemma pairs_nil_iff (v : url.Values) :
  flat_map url.pairs_of v = [] <-> url.encoded_keys v = [].
Proof.
  unfold url.encoded_keys, url.pairs_of.
  induction v as [|[key values] v IH]; simpl; [tauto|].
  split; intro H; apply app_eq_nil in H; destruct H as [H1 H2];
    apply map_eq_nil in H1; cbn [snd] in H1; subst values; simpl; apply IH; exact H2.
Qed.

Lemma encoded_keys_sort_nil_iff (v : url.Values) :
  url.encoded_keys (url.sort_keys v) = [] <-> url.encoded_keys v = [].
Proof.
  split; intro H.
  - destruct (url.encoded_keys v) as [|key keys] eqn:E; [reflexivity|].
    assert (I : In key (url.encoded_keys (url.sort_keys v))).
    { apply In_encoded_keys_sort. rewrite E. now left. }
    rewrite H in I. destruct I.
  - destruct (url.encoded_keys (url.sort_keys v)) as [|key keys] eqn:E; [reflexivity|].
    assert (I : In key (url.encoded_keys v)).
    { apply In_encoded_keys_sort. rewrite E. now left. }
    rewrite H in I. destruct I.
Qed.

Lemma Encode_empty_iff (v : url.Values) :
  url.Encode v = "" <-> url.encoded_keys v = [].
Proof.
  split; intro H.
  - apply encoded_keys_sort_nil_iff. rewrite <- query_keys_Encode, H. reflexivity.
  - apply encoded_keys_sort_nil_iff, pairs_nil_iff in H.
    unfold url.Encode. rewrite H. reflexivity.
Qed.

Lemma append_inv_head (a x y : string) : a ++ x = a ++ y -> x = y.
Proof.
  induction a as [|c a IH]; simpl; intro H; [exact H|].
  inversion H. auto.
Qed.

(** X14: [IssueMetadataService.Create] always writes the question mark,
    and the endpoint is the bare [rest/api/2/issue/createmeta?] exactly
    when nothing is supplied: nil options, or options whose four lists and
    [expand] are all empty. *)
Theorem Create_bare_endpoint_iff (opts : option v2.IssueMetadataCreateOptions) :
  v2.IssueMetadataService.Create_endpoint opts
  = "rest/api/2/issue/createmeta?" ++ url.Encode (v2.IssueMetadataService.query_Values opts)
  /\ (v2.IssueMetadataService.Create_endpoint opts = "rest/api/2/issue/createmeta?"
      <-> opts = None
          \/ exists o, opts = Some o
               /\ v2.ProjectIDs o = [] /\ v2.ProjectKeys o = []
               /\ v2.IssueTypeIDs o = [] /\ v2.IssueTypeNames o = []
               /\ v2.Expand o = "").
Proof.
  assert (E : v2.IssueMetadataService.Create_endpoint opts
              = "rest/api/2/issue/createmeta?"
                ++ url.Encode (v2.IssueMetadataService.query_Values opts))
    by (unfold v2.IssueMetadataService.Create_endpoint; simpl; now rewrite append_empty_r).
  split; [exact E|]. rewrite E.
  assert (K : "rest/api/2/issue/createmeta?"
              ++ url.Encode (v2.IssueMetadataService.query_Values opts)
              = "rest/api/2/issue/createmeta?"
              <-> url.encoded_keys (v2.IssueMetadataService.query_Values opts) = []).
  { rewrite <- Encode_empty_iff. split; intro H.
    - apply (append_inv_head "rest/api/2/issue/createmeta?"). now rewrite append_empty_r.
    - now rewrite H. }
  rewrite K. clear K E. split.
  - intro H. destruct opts as [o|]; [right | now left].
    exists o. split; [reflexivity|].
    assert (N : forall key, ~ In key (url.encoded_keys
                                        (v2.IssueMetadataService.query_Values (Some o))))
      by (intros key I; rewrite H in I; destruct I).
    repeat split.
    + destruct (v2.ProjectIDs o) eqn:F; [reflexivity|]. exfalso.
      apply (N "projectIds"), query_Values_keys. exists o. split; [reflexivity|].
      left. split; [reflexivity|]. rewrite F. discriminate.
    + destruct (v2.ProjectKeys o) eqn:F; [reflexivity|]. exfalso.
      apply (N "projectKeys"), query_Values_keys. exists o. split; [reflexivity|].
      right; left. split; [reflexivity|]. rewrite F. discriminate.
    + destruct (v2.IssueTypeIDs o) eqn:F; [reflexivity|]. exfalso.
      apply (N "issuetypeIds"), query_Values_keys. exists o. split; [reflexivity|].
      right; right; left. split; [reflexivity|]. rewrite F. discriminate.
    + destruct (v2.IssueTypeNames o) eqn:F; [reflexivity|]. exfalso.
      apply (N "issuetypeNames"), query_Values_keys. exists o. split; [reflexivity|].
      right; right; right; left. split; [reflexivity|]. rewrite F. discriminate.
    + destruct (v2.Expand o) eqn:F; [reflexivity|]. exfalso.
      apply (N "expand"), query_Values_keys. exists o. split; [reflexivity|].
      right; right; right; right. split; [reflexivity|]. rewrite F. discriminate.
  - intros [->|[o [-> (F1 & F2 & F3 & F4 & F5)]]]; [reflexivity|].
    destruct (url.encoded_keys (v2.IssueMetadataService.query_Values (Some o)))
      as [|key keys] eqn:E; [reflexivity|]. exfalso.
    assert (I : In key (url.encoded_keys (v2.IssueMetadataService.query_Values (Some o))))
      by (rewrite E; now left).
    apply query_Values_keys in I. destruct I as [o' [S I]]. inversion S. subst o'.
    rewrite F1, F2, F3, F4, F5 in I.
    destruct I as [[_ I]|[[_ I]|[[_ I]|[[_ I]|[_ I]]]]]; now elim I.
Qed.

(** ** Distinct identifiers, distinct endpoints *)

Lemma unreserved_without (c : ascii) (s : string) :
  url.shouldEscape c = true -> all_bytes unreserved s = true ->
  strings.ContainsByte s c = false.
Proof.
  intro E. induction s as [|d s IH]; simpl; [reflexivity|].
  intro H. apply andb_prop in H. destruct H as [Hd Hs].
  rewrite (IH Hs). destruct (Ascii.eqb_spec d c) as [->|_]; [|reflexivity].
  unfold unreserved in Hd. rewrite E in Hd. discriminate.
Qed.

Lemma Itoa_inj (i j : Z) : strconv.Itoa i = strconv.Itoa j -> i = j.
Proof.
  unfold strconv.Itoa. intro H. apply DecimalZ.to_int_inj.
  assert (S : Some (Z.to_int i) = Some (Z.to_int j))
    by (rewrite <- !NilEmpty.isi; now rewrite H).
  now inversion S.
Qed.

Lemma Itoa_then_slash (i j : Z) (x y : string) :
  strconv.Itoa i ++ String "/" x = strconv.Itoa j ++ String "/" y -> i = j /\ x = y.
Proof.
  intro H.
  assert (E : strconv.Itoa i = strconv.Itoa j).
  { rewrite <- (Before_app_sep (strconv.Itoa i) x "/"),
            <- (Before_app_sep (strconv.Itoa j) y "/"), H; [reflexivity| |];
      apply unreserved_without; try reflexivity; apply Itoa_unreserved. }
  rewrite E in H. apply append_inv_head in H. inversion H.
  split; [now apply Itoa_inj | reflexivity].
Qed.

(** X15: the endpoints of the filter-permission methods tell their
    identifiers apart: two collection endpoints are equal only for the
    same filter ID, and two item endpoints only for the same filter ID and
    the same permission ID. *)
Theorem permission_endpoints_injective (filterID permissionID filterID' permissionID' : Z) :
  ("rest/api/2/filter/" ++ strconv.Itoa filterID ++ "/permission"
   = "rest/api/2/filter/" ++ strconv.Itoa filterID' ++ "/permission"
   -> filterID = filterID')
  /\ ("rest/api/2/filter/" ++ strconv.Itoa filterID ++ "/permission/"
      ++ strconv.Itoa permissionID
      = "rest/api/2/filter/" ++ strconv.Itoa filterID' ++ "/permission/"
        ++ strconv.Itoa permissionID'
      -> filterID = filterID' /\ permissionID = permissionID').
Proof.
  split; intro H; apply (append_inv_head "rest/api/2/filter/") in H.
  - apply Itoa_then_slash in H. tauto.
  - apply Itoa_then_slash in H. destruct H as [F H]. split; [exact F|].
    apply (append_inv_head "permission/") in H. now apply Itoa_inj.
Qed.

(** * The further properties on concrete calls *)

(** [Merge] of version 10000 into 10001: the one request and its header. *)
Lemma ProjectVersion_exchanges_witness :
  snd (v2.ProjectVersionService.Merge demo_client context.Background "10000" "10001" [])
  = [Built "PUT" "rest/api/2/version/10000/mergeto/10001" None;
     Sent {| http.Method := "PUT";
             http.URL := "https://demo.atlassian.net/rest/api/2/version/10000/mergeto/10001";
             http.Header_ := [("Accept", ["application/json"])];
             http.Body := None |}].
Proof.
  assert (N1 : "KP" <> "") by discriminate.
  assert (N2 : "10000" <> "") by discriminate.
  assert (N3 : "10001" <> "") by discriminate.
  pose proof (ProjectVersion_exchanges demo_client unit unit unit unit
                (U_versions := demo_decoder _) (U_version := demo_decoder _)
                (U_page := demo_decoder _) (U_counts := demo_decoder _)
                (U_unresolved := demo_decoder _)
                context.Background "KP" "10000" "10001" None 0 50 [] [] N1 N2 N3) as H.
  cbv zeta in H. destruct H as (_ & _ & _ & H & _). exact H.
Defined.

(** [Update] of version 10000: the PUT carries the serialized payload. *)
Lemma ProjectVersion_writes_witness :
  snd (v2.ProjectVersionService.Update demo_client demo_on_nil unit unit
         (M_payload := demo_encoder _) (U_version := demo_decoder _)
         context.Background "10000" (Some tt) [])
  = [Built "PUT" "rest/api/2/version/10000" (Some (json.Object []));
     Sent {| http.Method := "PUT";
             http.URL := "https://demo.atlassian.net/rest/api/2/version/10000";
             http.Header_ := [("Accept", ["application/json"]);
                              ("Content-Type", ["application/json"])];
             http.Body := Some (json.Object []) |}].
Proof.
  assert (N : "10000" <> "") by discriminate.
  pose proof (ProjectVersion_writes demo_client demo_on_nil unit unit
                (M_payload := demo_encoder _) (U_version := demo_decoder _)
                context.Background "10000" tt [] N) as H.
  cbv zeta in H. exact (proj2 H).
Defined.

(** [IssueMetadataService.Get] on a client that cannot build requests. *)
Lemma IssueMetadata_exchanges_witness :
  v2.IssueMetadataService.Get failing_client string "" (fun bytes => bytes)
    context.Background "KP-1" true false []
  = (Some ("", None, Some (Foreign "net/http: nil Context")),
     [Built "GET" "rest/api/2/issue/KP-1/editmeta?overrideScreenSecurity=true" None]).
Proof.
  assert (N : "KP-1" <> "") by discriminate.
  pose proof (IssueMetadata_exchanges failing_client string "" (fun bytes => bytes)
                context.Background "KP-1" true false None [] N) as H.
  cbv zeta in H. exact (proj1 H).
Defined.

(** [WatcherService.Get] on a round trip that returns nil and nil. *)
Lemma Watcher_Get_nil_response_witness :
  fst (jira.WatcherService.Get silent_jira_client (U_watchers := demo_decoder _)
         context.Background "KP-1" [])
  = None.
Proof.
  pose proof (Watcher_Get_nil_response silent_jira_client (U_watchers := demo_decoder _)
                context.Background "KP-1" []) as H.
  cbv zeta in H. destruct H as ((_ & H) & _).
  apply H. eexists. split; reflexivity.
Defined.



(** Two project keys added one after the other. *)
Lemma Add_appends_value_witness :
  query_values (url.Add [("projectKeys", ["KP"])] "projectKeys" "OPS") "projectKeys"
  = ["KP"; "OPS"]
  /\ NoDup (map fst (url.Add [("projectKeys", ["KP"])] "expand" "projects")).
Proof.
  split.
  - exact (proj1 (Add_appends_value [("projectKeys", ["KP"])] "projectKeys" "OPS" "expand")).
  - apply (proj2 (proj2 (Add_appends_value [("projectKeys", ["KP"])] "expand" "projects"
                           "projectKeys"))).
    simpl. constructor; [intros [] | constructor].
Defined.

(** Options with every field empty. *)
Lemma Create_bare_endpoint_iff_witness :
  v2.IssueMetadataService.Create_endpoint
    (Some {| v2.ProjectIDs := []; v2.ProjectKeys := []; v2.IssueTypeIDs := [];
             v2.IssueTypeNames := []; v2.Expand := "" |})
  = "rest/api/2/issue/createmeta?".
Proof.
  apply (proj2 (Create_bare_endpoint_iff
                  (Some {| v2.ProjectIDs := []; v2.ProjectKeys := [];
                           v2.IssueTypeIDs := []; v2.IssueTypeNames := [];
                           v2.Expand := "" |}))).
  right. eexists. repeat split; reflexivity.
Defined.

(** One item endpoint read back: filter 7, permission 3. *)
Lemma permission_endpoints_injective_witness : (7 = 7 /\ 3 = 3)%Z.
Proof.
  exact (proj2 (permission_endpoints_injective 7 3 7 3) eq_refl).
Defined.
